(** * Boya-V2: the pH driver and the TTN decoder generator

    A shallow embedding of [src/sensor/sensor_ph.cpp] and
    [src/ttn_decoder_generator.cpp].

    - C [float] values are IEEE-754 binary32 numbers, JavaScript numbers are
      binary64 numbers; both are [spec_float] values with the operations of
      [SpecFloat] at the matching precision.
    - The driver's file-static variables and the hardware it touches (GPIO,
      ADC, serial port, clock) form one [world] record that every driver
      function threads through a small state monad.
    - [config/config.h] is not among the sources: its constants are the fields
      of [config_h]; the DFRobot_PH library is the interface [DFRobot_PH]. *)

From Stdlib Require Import ZArith List Bool String Ascii Lia DecimalString.
From Stdlib Require Import Floats.SpecFloat.
Import ListNotations.

Open Scope string_scope.
Open Scope Z_scope.

(** ** Floating point *)

Definition float : Set := spec_float.

(** Integral part of a finite float (rounding towards zero), the first step of
    a C conversion from a floating type to an integer type. *)
Definition SFtrunc (f : float) : option Z :=
  match f with
  | S754_zero _ => Some 0
  | S754_finite s m e =>
      Some (cond_Zopp s
              match e with
              | Zneg p => Z.shiftr (Zpos m) (Zpos p)
              | _ => Z.shiftl (Zpos m) e
              end)
  | S754_infinity _ | S754_nan => None
  end.

(** C [float]. *)
Module F32.
Definition prec : Z := 24.
Definition emax : Z := 128.
Definition of_Z (z : Z) : float := binary_normalize prec emax z 0 false.
Definition mul : float -> float -> float := SFmul prec emax.
Definition div : float -> float -> float := SFdiv prec emax.
(** The literal [n/d] written in decimal, correctly rounded. *)
Definition lit (n d : Z) : float := div (of_Z n) (of_Z d).
End F32.

(** JavaScript number. *)
Module F64.
Definition prec : Z := 53.
Definition emax : Z := 1024.
Definition of_Z (z : Z) : float := binary_normalize prec emax z 0 false.
Definition mul : float -> float -> float := SFmul prec emax.
Definition div : float -> float -> float := SFdiv prec emax.
Definition add : float -> float -> float := SFadd prec emax.
Definition lit (n d : Z) : float := div (of_Z n) (of_Z d).
End F64.

(** [(uint16_t) f].  The C standard defines the conversion only when the
    integral part of [f] fits the target type; what the target does otherwise
    is [overflow f], reduced to 16 bits. *)
Definition to_uint16 (overflow : float -> Z) (f : float) : Z :=
  match SFtrunc f with
  | Some z => if (0 <=? z) && (z <? 65536) then z else overflow f mod 65536
  | None => overflow f mod 65536
  end.

(** [(float) n] for an unsigned 32-bit [n]. *)
Definition uint32_to_float (n : Z) : float := F32.of_Z n.

(** *** Arithmetic on operands whose C type is not known

    The macros of config.h may be integer, [float] or [double] constants; an
    operand carries its type and the operators follow the usual arithmetic
    conversions of C on a target with 32-bit [int]. *)

Inductive c_number :=
| C_int (z : Z)          (* int *)
| C_uint (z : Z)         (* unsigned int, uint32_t *)
| C_float (x : float)    (* float *)
| C_double (x : float).  (* double *)

(** Conversion of a [double] to [float]: rounding to nearest. *)
Definition round_to_float (x : float) : float :=
  match x with
  | S754_finite s m e => binary_round F32.prec F32.emax s m e
  | _ => x
  end.

Definition c_to_double (a : c_number) : float :=
  match a with
  | C_int z | C_uint z => F64.of_Z z
  | C_float x | C_double x => x
  end.

Definition c_to_float (a : c_number) : float :=
  match a with
  | C_int z | C_uint z => F32.of_Z z
  | C_float x => x
  | C_double x => round_to_float x
  end.

(** An integer operand converted to [unsigned int]. *)
Definition c_to_uint (a : c_number) : Z :=
  match a with
  | C_int z | C_uint z => z mod 2 ^ 32
  | C_float _ | C_double _ => 0
  end.

(** [a / b].  Division of two integers by zero is undefined in C; it gives
    0 here. *)
Definition c_div (a b : c_number) : c_number :=
  match a, b with
  | C_double _, _ | _, C_double _ =>
      C_double (F64.div (c_to_double a) (c_to_double b))
  | C_float _, _ | _, C_float _ =>
      C_float (F32.div (c_to_float a) (c_to_float b))
  | C_uint _, _ | _, C_uint _ => C_uint (c_to_uint a / c_to_uint b)
  | C_int x, C_int y => C_int (Z.quot x y)
  end.

(** [a * b].  The product of two [int] is taken without overflow, which C
    leaves undefined. *)
Definition c_mul (a b : c_number) : c_number :=
  match a, b with
  | C_double _, _ | _, C_double _ =>
      C_double (F64.mul (c_to_double a) (c_to_double b))
  | C_float _, _ | _, C_float _ =>
      C_float (F32.mul (c_to_float a) (c_to_float b))
  | C_uint _, _ | _, C_uint _ =>
      C_uint ((c_to_uint a * c_to_uint b) mod 2 ^ 32)
  | C_int x, C_int y => C_int (x * y)
  end.

(** ** Text *)

Definition LF : string := String (ascii_of_nat 10) EmptyString.

(** Arguments of a [printf] call. *)
Inductive printf_arg :=
| ArgInt (z : Z)
| ArgFloat (f : float)
| ArgStr (s : string).

(** What the firmware sends to the serial port, one entry per call. *)
Inductive serial_out :=
| Println (s : string)
| Printf (fmt : string) (args : list printf_arg).

(** ** Constants of config.h and the DFRobot_PH library *)

Inductive pin_mode := INPUT | OUTPUT.

Definition HIGH : bool := true.
Definition LOW : bool := false.

(** The constants [sensor_ph.cpp] takes from [config/config.h].  The two
    analog constants enter arithmetic, so they carry their C type.  The
    plausible range is only compared with; comparisons between floats of
    different precisions are exact, so [PH_MIN] and [PH_MAX] may be [float]
    or [double] literals alike. *)
Class config_h := {
  PH_POWER_PIN : Z;
  PH_ANALOG_PIN : Z;
  PH_POWER_ON_DELAY_MS : Z;
  PH_READ_SAMPLES : Z;
  PH_READ_DELAY_MS : Z;
  PH_ADC_RESOLUTION : c_number;
  PH_REFERENCE_VOLTAGE : c_number;
  PH_MIN : float;
  PH_MAX : float;
  PH_DEFAULT_TEMPERATURE : float;
  SENSOR_ERROR_PH : float;
  SENSOR_PH_NAME : string;
  (** result of [(uint16_t) f] on the target when [f] is out of range *)
  uint16_overflow : float -> Z
}.

(** The DFRobot_PH object: its calibration state, [begin], [readPH] and
    [calibration], which reads pending serial input and may print. *)
Class DFRobot_PH := {
  ph_state : Type;
  ph_initial : ph_state;
  ph_begin : ph_state -> ph_state;
  ph_readPH : ph_state -> float -> float -> float;
  ph_calibration :
    ph_state -> float -> float -> list Z -> ph_state * list Z * list serial_out
}.

(** ** The reading record and the payload descriptor *)

Section Driver.

Context `{cfg : config_h} `{lib : DFRobot_PH}.

(** [sensor_data_t] is declared in config.h; the driver uses its [ph] field
    only, the fields of the other drivers are [other_fields]. *)
Context {other_fields : Type}.

Record sensor_data_t := {
  ph : float;
  data_rest : other_fields
}.

Definition set_ph (v : float) (d : sensor_data_t) : sensor_data_t :=
  {| ph := v; data_rest := data_rest d |}.

(** [payload_config_t]: the driver writes to [buffer] only. *)
Record payload_config_t := {
  buffer : list Z
}.

(** [buffer[i] = v] for a byte [v]; a store past the end of the array is not
    modelled and leaves the buffer as it is. *)
Fixpoint store_byte (i : nat) (v : Z) (buf : list Z) : list Z :=
  match buf, i with
  | [], _ => []
  | _ :: tl, O => (v mod 256) :: tl
  | b :: tl, S j => b :: store_byte j v tl
  end.

(** ** The world: driver statics and hardware *)

Record world := {
  (* static variables of sensor_ph.cpp *)
  sensor_available : bool;
  sensor_powered : bool;
  temperature : float;
  ph_sensor : ph_state;
  (* hardware *)
  gpio_mode : Z -> option pin_mode;
  gpio_level : Z -> bool;
  adc_input : nat -> Z;        (* the samples the ADC will deliver *)
  adc_reads : nat;             (* samples taken so far *)
  serial_rx : list Z;          (* bytes waiting on the serial port *)
  serial_tx : list serial_out; (* everything printed, oldest first *)
  clock_ms : Z                 (* time spent in delay() *)
}.

(** State at boot: the static initialisers of sensor_ph.cpp. *)
Definition boot (adc : nat -> Z) (rx : list Z) : world :=
  {| sensor_available := false;
     sensor_powered := false;
     temperature := PH_DEFAULT_TEMPERATURE;
     ph_sensor := ph_initial;
     gpio_mode := fun _ => None;
     gpio_level := fun _ => LOW;
     adc_input := adc;
     adc_reads := O;
     serial_rx := rx;
     serial_tx := [];
     clock_ms := 0 |}.

Definition M (A : Type) : Type := world -> A * world.

Definition ret {A} (a : A) : M A := fun w => (a, w).

Definition bind {A B} (m : M A) (k : A -> M B) : M B :=
  fun w => let (a, w') := m w in k a w'.

Notation "x <- m ;; k" := (bind m (fun x => k))
  (at level 61, m at next level, right associativity).
Notation "m ;; k" := (bind m (fun _ => k))
  (at level 61, right associativity).

Definition get {A} (f : world -> A) : M A := fun w => (f w, w).

Definition modify (f : world -> world) : M unit := fun w => (tt, f w).

(** *** Writes to the static variables *)

Definition set_sensor_available (b : bool) : M unit :=
  modify (fun w =>
    {| sensor_available := b;
       sensor_powered := sensor_powered w;
       temperature := temperature w;
       ph_sensor := ph_sensor w;
       gpio_mode := gpio_mode w;
       gpio_level := gpio_level w;
       adc_input := adc_input w;
       adc_reads := adc_reads w;
       serial_rx := serial_rx w;
       serial_tx := serial_tx w;
       clock_ms := clock_ms w |}).

Definition set_sensor_powered (b : bool) : M unit :=
  modify (fun w =>
    {| sensor_available := sensor_available w;
       sensor_powered := b;
       temperature := temperature w;
       ph_sensor := ph_sensor w;
       gpio_mode := gpio_mode w;
       gpio_level := gpio_level w;
       adc_input := adc_input w;
       adc_reads := adc_reads w;
       serial_rx := serial_rx w;
       serial_tx := serial_tx w;
       clock_ms := clock_ms w |}).

Definition set_temperature (t : float) : M unit :=
  modify (fun w =>
    {| sensor_available := sensor_available w;
       sensor_powered := sensor_powered w;
       temperature := t;
       ph_sensor := ph_sensor w;
       gpio_mode := gpio_mode w;
       gpio_level := gpio_level w;
       adc_input := adc_input w;
       adc_reads := adc_reads w;
       serial_rx := serial_rx w;
       serial_tx := serial_tx w;
       clock_ms := clock_ms w |}).

(** *** Arduino primitives *)

Definition pinMode (pin : Z) (m : pin_mode) : M unit :=
  modify (fun w =>
    {| sensor_available := sensor_available w;
       sensor_powered := sensor_powered w;
       temperature := temperature w;
       ph_sensor := ph_sensor w;
       gpio_mode := fun p => if p =? pin then Some m else gpio_mode w p;
       gpio_level := gpio_level w;
       adc_input := adc_input w;
       adc_reads := adc_reads w;
       serial_rx := serial_rx w;
       serial_tx := serial_tx w;
       clock_ms := clock_ms w |}).

Definition digitalWrite (pin : Z) (v : bool) : M unit :=
  modify (fun w =>
    {| sensor_available := sensor_available w;
       sensor_powered := sensor_powered w;
       temperature := temperature w;
       ph_sensor := ph_sensor w;
       gpio_mode := gpio_mode w;
       gpio_level := fun p => if p =? pin then v else gpio_level w p;
       adc_input := adc_input w;
       adc_reads := adc_reads w;
       serial_rx := serial_rx w;
       serial_tx := serial_tx w;
       clock_ms := clock_ms w |}).

(** [analogRead] hands out the next sample of the converter. *)
Definition analogRead (pin : Z) : M Z :=
  fun w =>
    (adc_input w (adc_reads w),
     {| sensor_available := sensor_available w;
        sensor_powered := sensor_powered w;
        temperature := temperature w;
        ph_sensor := ph_sensor w;
        gpio_mode := gpio_mode w;
        gpio_level := gpio_level w;
        adc_input := adc_input w;
        adc_reads := S (adc_reads w);
        serial_rx := serial_rx w;
        serial_tx := serial_tx w;
        clock_ms := clock_ms w |}).

Definition delay (ms : Z) : M unit :=
  modify (fun w =>
    {| sensor_available := sensor_available w;
       sensor_powered := sensor_powered w;
       temperature := temperature w;
       ph_sensor := ph_sensor w;
       gpio_mode := gpio_mode w;
       gpio_level := gpio_level w;
       adc_input := adc_input w;
       adc_reads := adc_reads w;
       serial_rx := serial_rx w;
       serial_tx := serial_tx w;
       clock_ms := clock_ms w + ms |}).

Definition serial_write (out : list serial_out) : M unit :=
  modify (fun w =>
    {| sensor_available := sensor_available w;
       sensor_powered := sensor_powered w;
       temperature := temperature w;
       ph_sensor := ph_sensor w;
       gpio_mode := gpio_mode w;
       gpio_level := gpio_level w;
       adc_input := adc_input w;
       adc_reads := adc_reads w;
       serial_rx := serial_rx w;
       serial_tx := (serial_tx w ++ out)%list;
       clock_ms := clock_ms w |}).

Definition Serial_println (s : string) : M unit := serial_write [Println s].

Definition Serial_printf (fmt : string) (args : list printf_arg) : M unit :=
  serial_write [Printf fmt args].

Definition Serial_available : M Z :=
  get (fun w => Z.of_nat (List.length (serial_rx w))).

(** *** Calls into the DFRobot_PH object *)

Definition ph_sensor_begin : M unit :=
  modify (fun w =>
    {| sensor_available := sensor_available w;
       sensor_powered := sensor_powered w;
       temperature := temperature w;
       ph_sensor := ph_begin (ph_sensor w);
       gpio_mode := gpio_mode w;
       gpio_level := gpio_level w;
       adc_input := adc_input w;
       adc_reads := adc_reads w;
       serial_rx := serial_rx w;
       serial_tx := serial_tx w;
       clock_ms := clock_ms w |}).

Definition ph_sensor_readPH (voltage temp : float) : M float :=
  get (fun w => ph_readPH (ph_sensor w) voltage temp).

Definition ph_sensor_calibration (voltage temp : float) : M unit :=
  modify (fun w =>
    let '(st, rx, out) :=
      ph_calibration (ph_sensor w) voltage temp (serial_rx w) in
    {| sensor_available := sensor_available w;
       sensor_powered := sensor_powered w;
       temperature := temperature w;
       ph_sensor := st;
       gpio_mode := gpio_mode w;
       gpio_level := gpio_level w;
       adc_input := adc_input w;
       adc_reads := adc_reads w;
       serial_rx := rx;
       serial_tx := (serial_tx w ++ out)%list;
       clock_ms := clock_ms w |}).

(** ** sensor_ph.cpp *)

Definition sensor_ph_power_on : M unit :=
  powered <- get sensor_powered ;;
  if powered then ret tt else
  pinMode PH_POWER_PIN OUTPUT ;;
  digitalWrite PH_POWER_PIN HIGH ;;
  set_sensor_powered true ;;
  Serial_println "pH: Alimentacion de sensores activada" ;;
  Serial_printf ("pH: Esperando %d ms para estabilizacion..." ++ LF)
                [ArgInt PH_POWER_ON_DELAY_MS] ;;
  delay PH_POWER_ON_DELAY_MS.

Definition sensor_ph_power_off : M unit :=
  powered <- get sensor_powered ;;
  if negb powered then ret tt else
  digitalWrite PH_POWER_PIN LOW ;;
  set_sensor_powered false ;;
  Serial_println "pH: Alimentacion de sensores desactivada" ;;
  delay 1000.

Definition sensor_ph_init : M bool :=
  Serial_println "pH: Iniciando sensor de pH DFRobot..." ;;
  pinMode PH_ANALOG_PIN INPUT ;;
  pinMode PH_POWER_PIN OUTPUT ;;
  ph_sensor_begin ;;
  Serial_printf ("pH: Pin ADC configurado en GPIO%d" ++ LF)
                [ArgInt PH_ANALOG_PIN] ;;
  Serial_printf ("pH: Pin de alimentacion configurado en GPIO%d" ++ LF)
                [ArgInt PH_POWER_PIN] ;;
  Serial_println "pH: Libreria DFRobot_PH inicializada" ;;
  set_sensor_available true ;;
  ret true.

Definition sensor_ph_is_available : M bool := get sensor_available.

Definition sensor_ph_retry_init : M bool :=
  avail <- get sensor_available ;;
  if avail then ret true else
  Serial_println "Reintentando inicializacion del sensor de pH..." ;;
  sensor_ph_init.

(** The sampling loop of [read_ph_value]: [n] more rounds, [sum] is a
    [uint32_t]. *)
Fixpoint sample_loop (n : nat) (sum : Z) : M Z :=
  match n with
  | O => ret sum
  | S n' =>
      v <- analogRead PH_ANALOG_PIN ;;
      delay PH_READ_DELAY_MS ;;
      sample_loop n' ((sum + v) mod 2 ^ 32)
  end.

Definition read_ph_value : M float :=
  sum <- sample_loop (Z.to_nat PH_READ_SAMPLES) 0 ;;
  let avg_reading :=
    F32.div (uint32_to_float sum) (F32.of_Z PH_READ_SAMPLES) in
  let voltage :=
    c_to_float (c_mul (c_div (C_float avg_reading) PH_ADC_RESOLUTION)
                      PH_REFERENCE_VOLTAGE) in
  Serial_printf ("pH: Lectura ADC promedio = %.1f, Voltaje = %.3f V" ++ LF)
                [ArgFloat avg_reading; ArgFloat voltage] ;;
  temp <- get temperature ;;
  ph_value <- ph_sensor_readPH voltage temp ;;
  ret ph_value.

Definition sensor_ph_set_temperature (temp : float) : M unit :=
  if SFleb (F32.of_Z (-50)) temp && SFleb temp (F32.of_Z 100) then
    set_temperature temp ;;
    Serial_printf ("pH: Temperatura actualizada a %.2f grados C" ++ LF)
                  [ArgFloat temp]
  else ret tt.

(** [data] is the pointer argument, [None] for a null pointer; the second
    component of the result is the record it points to after the call. *)
Definition sensor_ph_read_all (data : option sensor_data_t)
  : M (bool * option sensor_data_t) :=
  avail <- get sensor_available ;;
  match data with
  | None => ret (false, data)
  | Some d =>
      if negb avail then ret (false, data) else
      sensor_ph_power_on ;;
      ph_v <- read_ph_value ;;
      (if SFltb ph_v PH_MIN || SFltb PH_MAX ph_v then
         Serial_printf ("pH: ADVERTENCIA - Lectura fuera de rango: %.2f" ++ LF)
                       [ArgFloat ph_v]
       else ret tt) ;;
      let d' := set_ph ph_v d in
      Serial_printf ("pH: Valor de pH = %.2f" ++ LF) [ArgFloat ph_v] ;;
      sensor_ph_power_off ;;
      ret (true, Some d')
  end.

(** The part of [sensor_ph_get_payload] after the read: [ok] is what
    [sensor_ph_read_all] returned and [data] the local record after it. *)
Definition encode_ph (ok : bool) (data : sensor_data_t)
    (config : payload_config_t) : Z * payload_config_t :=
  let data := if negb ok then set_ph SENSOR_ERROR_PH data else data in
  let ph_int :=
    to_uint16 uint16_overflow (F32.mul (ph data) (F32.of_Z 100)) in
  let b := store_byte 0 (Z.shiftr ph_int 8) (buffer config) in
  let b := store_byte 1 (Z.land ph_int 255) b in
  (2, {| buffer := b |}).

(** [config] is the pointer argument; [uninit] is what the local variable
    [data] holds before it is written. *)
Definition sensor_ph_get_payload (uninit : sensor_data_t)
    (config : option payload_config_t) : M (Z * option payload_config_t) :=
  avail <- get sensor_available ;;
  match config with
  | None => ret (0, config)
  | Some c =>
      if negb avail then ret (0, config) else
      r <- sensor_ph_read_all (Some uninit) ;;
      let data := match snd r with Some d => d | None => uninit end in
      let (n, c') := encode_ph (fst r) data c in
      ret (n, Some c')
  end.

Definition sensor_ph_get_name : M string := ret SENSOR_PH_NAME.

Definition sensor_ph_set_available_for_testing (available : bool) : M unit :=
  set_sensor_available available ;;
  Serial_printf ("TESTING: Sensor pH forzado a %s" ++ LF)
    [ArgStr (if available then "disponible" else "no disponible")].

Definition sensor_ph_process_serial : M unit :=
  avail <- get sensor_available ;;
  if negb avail then ret tt else
  pending <- Serial_available ;;
  if pending =? 0 then ret tt else
  sensor_ph_power_on ;;
  raw <- analogRead PH_ANALOG_PIN ;;
  let voltage :=
    c_to_float (c_mul (c_div (C_uint (raw mod 2 ^ 32)) PH_ADC_RESOLUTION)
                      PH_REFERENCE_VOLTAGE) in
  temp <- get temperature ;;
  ph_sensor_calibration voltage temp ;;
  sensor_ph_power_off.

(** The public functions of the driver, as the firmware can call them. *)
Inductive api_call :=
| Call_init
| Call_is_available
| Call_retry_init
| Call_set_temperature (temp : float)
| Call_read_all (data : option sensor_data_t)
| Call_get_payload (uninit : sensor_data_t) (config : option payload_config_t)
| Call_get_name
| Call_set_available_for_testing (available : bool)
| Call_process_serial.

(** The world after a call. *)
Definition run_call (c : api_call) (w : world) : world :=
  match c with
  | Call_init => snd (sensor_ph_init w)
  | Call_is_available => snd (sensor_ph_is_available w)
  | Call_retry_init => snd (sensor_ph_retry_init w)
  | Call_set_temperature t => snd (sensor_ph_set_temperature t w)
  | Call_read_all data => snd (sensor_ph_read_all data w)
  | Call_get_payload uninit config => snd (sensor_ph_get_payload uninit config w)
  | Call_get_name => snd (sensor_ph_get_name w)
  | Call_set_available_for_testing b =>
      snd (sensor_ph_set_available_for_testing b w)
  | Call_process_serial => snd (sensor_ph_process_serial w)
  end.

Definition writes_availability (c : api_call) : bool :=
  match c with
  | Call_init | Call_retry_init | Call_set_available_for_testing _ => true
  | _ => false
  end.

(** ** Wire format, as the specification words it *)

(** A 16-bit field sent low byte first. *)
Definition u16_little_endian (v : Z) : list Z :=
  [Z.land v 255; Z.shiftr v 8 mod 256].

(** A 16-bit field sent high byte first. *)
Definition u16_big_endian (v : Z) : list Z :=
  [Z.shiftr v 8 mod 256; Z.land v 255].

(** The pH field of the payload: the reading times 100 as a [uint16_t]. *)
Definition ph_field (v : float) : Z :=
  to_uint16 uint16_overflow (F32.mul v (F32.of_Z 100)).

(** ** The sampling loop in closed form *)

Fixpoint sum_samples (adc : nat -> Z) (start n : nat) (sum : Z) : Z :=
  match n with
  | O => sum
  | S n' => sum_samples adc (S start) n' ((sum + adc start) mod 2 ^ 32)
  end.

Definition after_samples (n : nat) (w : world) : world :=
  {| sensor_available := sensor_available w;
     sensor_powered := sensor_powered w;
     temperature := temperature w;
     ph_sensor := ph_sensor w;
     gpio_mode := gpio_mode w;
     gpio_level := gpio_level w;
     adc_input := adc_input w;
     adc_reads := (n + adc_reads w)%nat;
     serial_rx := serial_rx w;
     serial_tx := serial_tx w;
     clock_ms := clock_ms w + Z.of_nat n * PH_READ_DELAY_MS |}.

(** ** Names for what a call observes *)

(** The pH value a read started in world [w] obtains from the probe. *)
Definition ph_reading (w : world) : float :=
  fst (read_ph_value (snd (sensor_ph_power_on w))).

(** The warning [sensor_ph_read_all] prints for an implausible reading. *)
Definition out_of_range_warning (v : float) : serial_out :=
  Printf ("pH: ADVERTENCIA - Lectura fuera de rango: %.2f" ++ LF) [ArgFloat v].

(** [v] lies outside the plausible range, as [sensor_ph_read_all] tests it. *)
Definition out_of_range (v : float) : bool :=
  SFltb v PH_MIN || SFltb PH_MAX v.

End Driver.

Arguments sensor_data_t : clear implicits.

(** ** ttn_decoder_generator.cpp *)

(** The compile-time selection of a build (config.h). *)
Class build_config := {
  ENABLE_SENSOR_PH : bool;
  ENABLE_SENSOR_BME280 : bool;
  ENABLE_SENSOR_DS18B20 : bool;
  SHOW_TTN_DECODER : Z;
  PAYLOAD_SIZE_BYTES : Z
}.

Definition CRLF : string :=
  String (ascii_of_nat 13) (String (ascii_of_nat 10) EmptyString).

(** Each printing function is the list of its calls to the serial port. *)

Definition print_decoder_header : list serial_out :=
  [ Println EmptyString;
    Println "==================== DECODIFICADOR PAYLOAD TTN ====================";
    Println EmptyString;
    Println "// COPIA Y PEGA ESTE CÓDIGO EN TTN CONSOLE -> APPLICATIONS -> PAYLOAD FORMATTERS";
    Println "// 1. Ve a tu aplicación en TTN Console";
    Println "// 2. Ve a Payload formatters -> Uplink";
    Println "// 3. Selecciona 'Custom Javascript formatter'";
    Println "// 4. Pega el código siguiente en el campo 'Formatter code'";
    Println "// 5. Haz clic en 'Save changes'";
    Println EmptyString;
    Println "function decodeUplink(input) {";
    Println "  var data = {};";
    Println "  var bytes = input.bytes;";
    Println "  var offset = 0;";
    Println EmptyString ].

Definition print_battery_percent_decoder : list serial_out :=
  [ Println "  // Byte 0: Batería en porcentaje (0-100%)";
    Println "  data.battery_percent = bytes[offset++];";
    Println EmptyString ].

Definition print_ph_decoder : list serial_out :=
  [ Println "  // Byte 1-2: pH (x100) - Little-endian";
    Println "  var ph_raw = bytes[offset++] | (bytes[offset++] << 8);";
    Println "  data.ph = ph_raw / 100.0;";
    Println EmptyString ].

Definition print_temperature_ext_decoder : list serial_out :=
  [ Println "  // Byte 3-4: Temperatura exterior BME280 (°C * 100) - Little-endian";
    Println "  var temp_ext_raw = bytes[offset++] | (bytes[offset++] << 8);";
    Println "  data.temperature_ext = temp_ext_raw / 100.0;";
    Println EmptyString ].

Definition print_temperature_water_decoder : list serial_out :=
  [ Println "  // Byte 5-6: Temperatura agua 1m DS18B20 (°C * 100) - Little-endian";
    Println "  var temp_water_raw = bytes[offset++] | (bytes[offset++] << 8);";
    Println "  data.temperature_water_1m = temp_water_raw / 100.0;";
    Println EmptyString ].

Definition print_humidity_decoder : list serial_out :=
  [ Println "  // Byte 7-8: Humedad BME280 (% * 100) - Little-endian";
    Println "  var humidity_raw = bytes[offset++] | (bytes[offset++] << 8);";
    Println "  data.humidity = humidity_raw / 100.0;";
    Println EmptyString ].

Definition print_pressure_decoder : list serial_out :=
  [ Println "  // Byte 9-10: Presión atmosférica BME280 (hPa * 10) - Little-endian";
    Println "  var pressure_raw = bytes[offset++] | (bytes[offset++] << 8);";
    Println "  data.pressure = pressure_raw / 10.0;";
    Println EmptyString ].

Definition print_payload_validation : list serial_out :=
  [ Println "  // Validar tamaño del payload (12 bytes esperados)";
    Println "  if (bytes.length !== 12) {";
    Println "    return {";
    Println "      data: data,";
    Println "      warnings: ['Payload size should be 12 bytes, got ' + bytes.length],";
    Println "      errors: []";
    Println "    };";
    Println "  }";
    Println EmptyString ].

Definition print_decoder_footer : list serial_out :=
  [ Println "  return { data: data };";
    Println "}";
    Println EmptyString;
    Println "==================== FIN DEL DECODIFICADOR ====================";
    Println EmptyString ].

Section Generator.

Context `{build : build_config}.

Definition print_configuration_info : list serial_out :=
  [ Println EmptyString;
    Println "=== CONFIGURACIÓN BOYA MARÍTIMA V2 ===";
    Println "Sensores activos:" ]
  ++ (if ENABLE_SENSOR_BME280
      then [Println "  ✓ BME280 (Temperatura exterior, Humedad, Presión)"]
      else [])
  ++ (if ENABLE_SENSOR_DS18B20
      then [Println "  ✓ DS18B20 (Temperatura agua 1m)"]
      else [])
  ++ (if ENABLE_SENSOR_PH
      then [Println "  ✓ DFRobot pH (pH del agua)"]
      else [])
  ++ [ Println EmptyString;
       (let payload_size := PAYLOAD_SIZE_BYTES mod 256 in
        Printf ("Tamaño del payload: %d bytes" ++ CRLF) [ArgInt payload_size]);
       Println "Estructura del payload (12 bytes):";
       Println "  Byte 0:      Batería (%)";
       Println "  Byte 1-2:    pH (x100) - Little-endian";
       Println "  Byte 3-4:    Temperatura exterior (x100) - Little-endian";
       Println "  Byte 5-6:    Temperatura agua 1m (x100) - Little-endian";
       Println "  Byte 7-8:    Humedad (x100) - Little-endian";
       Println "  Byte 9-10:   Presión (x10) - Little-endian";
       Println EmptyString ].

Definition generate_and_print_ttn_decoder : list serial_out :=
  if SHOW_TTN_DECODER =? 0 then [] else
  print_configuration_info
  ++ print_decoder_header
  ++ print_payload_validation
  ++ print_battery_percent_decoder
  ++ (if ENABLE_SENSOR_PH then print_ph_decoder else [])
  ++ (if ENABLE_SENSOR_BME280 then print_temperature_ext_decoder else [])
  ++ (if ENABLE_SENSOR_DS18B20 then print_temperature_water_decoder else [])
  ++ (if ENABLE_SENSOR_BME280
      then print_humidity_decoder ++ print_pressure_decoder else [])
  ++ print_decoder_footer.

(** [snprintf(buffer + offset, max_size - offset, chunk)] followed by
    [offset += ...]: [text] is the C string the buffer holds.  Both operands
    of the subtraction are [uint16_t] promoted to [int], so a negative
    difference reaches [snprintf] as a [size_t] above [INT_MAX].  What the
    call does then is the C library's business (one writes past the buffer,
    another fails and returns a negative count); the model stops there:
    [None]. *)
Definition snprintf_at (max_size : Z) (st : option (string * Z))
    (chunk : string) : option (string * Z) :=
  match st with
  | None => None
  | Some (text, offset) =>
      let room := max_size - offset in
      if room <? 0 then None else
      let written :=
        if room =? 0 then EmptyString
        else substring 0 (Z.to_nat (room - 1)) chunk in
      Some (text ++ written,
            (offset + Z.of_nat (String.length chunk)) mod 65536)
  end.

Definition decoder_string_header : string :=
  "function decodeUplink(input) {" ++ LF ++
  "  var data = {};" ++ LF ++
  "  var bytes = input.bytes;" ++ LF ++
  "  var offset = 0;" ++ LF ++ LF ++
  "  if (bytes.length !== 12) {" ++ LF ++
  "    return { data: data, warnings: ['Payload size should be 12 bytes'], errors: [] };" ++ LF ++
  "  }" ++ LF ++ LF.

Definition decoder_string_battery : string :=
  "  data.battery_percent = bytes[offset++];" ++ LF.

Definition decoder_string_ph : string :=
  "  var ph_raw = bytes[offset++] | (bytes[offset++] << 8);" ++ LF ++
  "  data.ph = ph_raw / 100.0;" ++ LF.

Definition decoder_string_temperature_ext : string :=
  "  var temp_ext_raw = bytes[offset++] | (bytes[offset++] << 8);" ++ LF ++
  "  data.temperature_ext = temp_ext_raw / 100.0;" ++ LF.

Definition decoder_string_temperature_water : string :=
  "  var temp_water_raw = bytes[offset++] | (bytes[offset++] << 8);" ++ LF ++
  "  data.temperature_water_1m = temp_water_raw / 100.0;" ++ LF.

Definition decoder_string_humidity_pressure : string :=
  "  var humidity_raw = bytes[offset++] | (bytes[offset++] << 8);" ++ LF ++
  "  data.humidity = humidity_raw / 100.0;" ++ LF ++
  "  var pressure_raw = bytes[offset++] | (bytes[offset++] << 8);" ++ LF ++
  "  data.pressure = pressure_raw / 10.0;" ++ LF.

Definition decoder_string_footer : string :=
  LF ++ "  return { data: data, warnings: [], errors: [] };" ++ LF ++
  "}" ++ LF.

(** The chunks [generate_ttn_decoder_string] prints, in order. *)
Definition decoder_string_chunks : list string :=
  [decoder_string_header; decoder_string_battery]
  ++ (if ENABLE_SENSOR_PH then [decoder_string_ph] else [])
  ++ (if ENABLE_SENSOR_BME280 then [decoder_string_temperature_ext] else [])
  ++ (if ENABLE_SENSOR_DS18B20 then [decoder_string_temperature_water] else [])
  ++ (if ENABLE_SENSOR_BME280 then [decoder_string_humidity_pressure] else [])
  ++ [decoder_string_footer].

(** [buffer] is [None] for a null pointer.  The result is the returned count
    and the C string left in the buffer, or [None] when a call of
    [snprintf] was handed a negative [max_size - offset]. *)
Definition generate_ttn_decoder_string (buffer : option string)
    (max_size : Z) : option (Z * option string) :=
  match buffer with
  | None => Some (0, buffer)
  | Some _ =>
      if max_size <? 100 then Some (0, buffer) else
      match fold_left (snprintf_at max_size) decoder_string_chunks
                      (Some (EmptyString, 0)) with
      | Some (text, offset) => Some (offset, Some text)
      | None => None
      end
  end.

End Generator.

(** ** The emitted decoder as a program

    The text the generator emits is JavaScript.  [js_stmt] has one
    constructor per statement form that occurs in it; [render_stmt] gives the
    source text of a statement and [exec_stmt] its meaning, so that the
    emitted lines can be shown to be the rendering of a program whose runs
    are then computed. *)

Inductive js_stmt :=
| JsBlank
| JsComment (text : string)
| JsInitData                                  (* var data = {}; *)
| JsInitBytes                                 (* var bytes = input.bytes; *)
| JsInitOffset                                (* var offset = 0; *)
| JsCheckLengthGot (n : Z)   (* if (bytes.length !== n) return, message with length *)
| JsCheckLength (n : Z)      (* if (bytes.length !== n) return *)
| JsReadByte (field : string)                 (* data.field = bytes[offset++]; *)
| JsReadU16 (var : string)    (* var v = bytes[offset++] | (bytes[offset++] << 8); *)
| JsScale (field var : string) (divisor : Z)  (* data.field = v / divisor.0; *)
| JsReturnData                                (* return { data: data }; *)
| JsReturnAll.              (* return { data: data, warnings: [], errors: [] }; *)

Definition decimal (z : Z) : string := NilZero.string_of_int (Z.to_int z).

Definition render_stmt (s : js_stmt) : list string :=
  match s with
  | JsBlank => [EmptyString]
  | JsComment text => ["  // " ++ text]
  | JsInitData => ["  var data = {};"]
  | JsInitBytes => ["  var bytes = input.bytes;"]
  | JsInitOffset => ["  var offset = 0;"]
  | JsCheckLengthGot n =>
      [ "  if (bytes.length !== " ++ decimal n ++ ") {";
        "    return {";
        "      data: data,";
        "      warnings: ['Payload size should be " ++ decimal n
          ++ " bytes, got ' + bytes.length],";
        "      errors: []";
        "    };";
        "  }" ]
  | JsCheckLength n =>
      [ "  if (bytes.length !== " ++ decimal n ++ ") {";
        "    return { data: data, warnings: ['Payload size should be "
          ++ decimal n ++ " bytes'], errors: [] };";
        "  }" ]
  | JsReadByte field => ["  data." ++ field ++ " = bytes[offset++];"]
  | JsReadU16 var =>
      ["  var " ++ var ++ " = bytes[offset++] | (bytes[offset++] << 8);"]
  | JsScale field var divisor =>
      ["  data." ++ field ++ " = " ++ var ++ " / " ++ decimal divisor ++ ".0;"]
  | JsReturnData => ["  return { data: data };"]
  | JsReturnAll => ["  return { data: data, warnings: [], errors: [] };"]
  end.

(** [function decodeUplink(input) { body }], line by line. *)
Definition render_function (body : list js_stmt) : list string :=
  ["function decodeUplink(input) {"] ++ flat_map render_stmt body ++ ["}"].

(** Lines joined into one text, each closed by a line feed. *)
Definition unlines (lines : list string) : string :=
  fold_right (fun l acc => l ++ LF ++ acc) EmptyString lines.

(** *** Values and the operators the decoder uses *)

Inductive js_value :=
| JsUndefined
| JsNumber (x : float).

Definition js_object : Type := list (string * js_value).

(** [obj.key = v]: an existing property keeps its place. *)
Fixpoint js_set (key : string) (v : js_value) (obj : js_object) : js_object :=
  match obj with
  | [] => [(key, v)]
  | (k, old) :: tl =>
      if String.eqb k key then (k, v) :: tl else (k, old) :: js_set key v tl
  end.

Fixpoint js_get (key : string) (obj : js_object) : option js_value :=
  match obj with
  | [] => None
  | (k, v) :: tl => if String.eqb k key then Some v else js_get key tl
  end.

(** [bytes[i]]: [undefined] outside the array. *)
Definition js_index (bytes : list Z) (i : Z) : js_value :=
  if i <? 0 then JsUndefined else
  match nth_error bytes (Z.to_nat i) with
  | Some b => JsNumber (F64.of_Z b)
  | None => JsUndefined
  end.

(** Reduction to a signed 32-bit integer. *)
Definition wrap_int32 (z : Z) : Z := (z + 2 ^ 31) mod 2 ^ 32 - 2 ^ 31.

(** ToInt32: [undefined], NaN and the infinities give 0. *)
Definition js_to_int32 (v : js_value) : Z :=
  match v with
  | JsUndefined => 0
  | JsNumber x =>
      match SFtrunc x with
      | Some z => wrap_int32 z
      | None => 0
      end
  end.

(** [a << b] *)
Definition js_shl (a b : js_value) : js_value :=
  JsNumber (F64.of_Z
    (wrap_int32 (Z.shiftl (js_to_int32 a) (js_to_int32 b mod 32)))).

(** [a | b] *)
Definition js_bitor (a b : js_value) : js_value :=
  JsNumber (F64.of_Z (Z.lor (js_to_int32 a) (js_to_int32 b))).

(** [a / b]; [undefined] converts to NaN. *)
Definition js_div (a b : js_value) : js_value :=
  match a, b with
  | JsNumber x, JsNumber y => JsNumber (F64.div x y)
  | _, _ => JsNumber S754_nan
  end.

(** *** Running the decoder *)

(** What [decodeUplink] returns: [None] for a key the object does not have. *)
Record js_result := {
  res_data : js_object;
  res_warnings : option (list string);
  res_errors : option (list string)
}.

Inductive js_outcome :=
| Returned (r : js_result)
| Threw                    (* a ReferenceError *)
| NoReturn.                (* the body ended without [return] *)

Record js_env := {
  env_data : js_object;
  env_bytes : list Z;
  env_offset : Z;
  env_vars : list (string * js_value)
}.

(** One statement: the environment after it, or the outcome that ends the
    call.  [input_bytes] is [input.bytes]. *)
Definition exec_stmt (input_bytes : list Z) (s : js_stmt) (e : js_env)
  : js_env + js_outcome :=
  let len := Z.of_nat (List.length (env_bytes e)) in
  match s with
  | JsBlank | JsComment _ => inl e
  | JsInitData =>
      inl {| env_data := []; env_bytes := env_bytes e;
             env_offset := env_offset e; env_vars := env_vars e |}
  | JsInitBytes =>
      inl {| env_data := env_data e; env_bytes := input_bytes;
             env_offset := env_offset e; env_vars := env_vars e |}
  | JsInitOffset =>
      inl {| env_data := env_data e; env_bytes := env_bytes e;
             env_offset := 0; env_vars := env_vars e |}
  | JsCheckLengthGot n =>
      if len =? n then inl e else
      inr (Returned
        {| res_data := env_data e;
           res_warnings :=
             Some ["Payload size should be " ++ decimal n ++ " bytes, got "
                   ++ decimal len];
           res_errors := Some [] |})
  | JsCheckLength n =>
      if len =? n then inl e else
      inr (Returned
        {| res_data := env_data e;
           res_warnings :=
             Some ["Payload size should be " ++ decimal n ++ " bytes"];
           res_errors := Some [] |})
  | JsReadByte field =>
      inl {| env_data :=
               js_set field (js_index (env_bytes e) (env_offset e)) (env_data e);
             env_bytes := env_bytes e;
             env_offset := env_offset e + 1;
             env_vars := env_vars e |}
  | JsReadU16 var =>
      let lo := js_index (env_bytes e) (env_offset e) in
      let hi := js_index (env_bytes e) (env_offset e + 1) in
      inl {| env_data := env_data e;
             env_bytes := env_bytes e;
             env_offset := env_offset e + 2;
             env_vars :=
               js_set var (js_bitor lo (js_shl hi (JsNumber (F64.of_Z 8))))
                      (env_vars e) |}
  | JsScale field var divisor =>
      match js_get var (env_vars e) with
      | None => inr Threw
      | Some raw =>
          inl {| env_data :=
                   js_set field (js_div raw (JsNumber (F64.of_Z divisor)))
                          (env_data e);
                 env_bytes := env_bytes e;
                 env_offset := env_offset e;
                 env_vars := env_vars e |}
      end
  | JsReturnData =>
      inr (Returned {| res_data := env_data e;
                       res_warnings := None; res_errors := None |})
  | JsReturnAll =>
      inr (Returned {| res_data := env_data e;
                       res_warnings := Some []; res_errors := Some [] |})
  end.

Fixpoint exec_body (input_bytes : list Z) (body : list js_stmt) (e : js_env)
  : js_env + js_outcome :=
  match body with
  | [] => inl e
  | s :: rest =>
      match exec_stmt input_bytes s e with
      | inl e' => exec_body input_bytes rest e'
      | inr out => inr out
      end
  end.

Definition empty_env : js_env :=
  {| env_data := []; env_bytes := []; env_offset := 0; env_vars := [] |}.

(** [decodeUplink({bytes: input_bytes})] for the function with this body. *)
Definition decodeUplink (body : list js_stmt) (input_bytes : list Z)
  : js_outcome :=
  match exec_body input_bytes body empty_env with
  | inl _ => NoReturn
  | inr out => out
  end.

(** *** The programs the two generators emit *)

Definition decoder_prologue : list js_stmt :=
  [JsInitData; JsInitBytes; JsInitOffset; JsBlank].

Definition payload_validation_code : list js_stmt :=
  [ JsComment "Validar tamaño del payload (12 bytes esperados)";
    JsCheckLengthGot 12; JsBlank ].

Definition battery_percent_code : list js_stmt :=
  [ JsComment "Byte 0: Batería en porcentaje (0-100%)";
    JsReadByte "battery_percent"; JsBlank ].

Definition ph_code : list js_stmt :=
  [ JsComment "Byte 1-2: pH (x100) - Little-endian";
    JsReadU16 "ph_raw"; JsScale "ph" "ph_raw" 100; JsBlank ].

Definition temperature_ext_code : list js_stmt :=
  [ JsComment "Byte 3-4: Temperatura exterior BME280 (°C * 100) - Little-endian";
    JsReadU16 "temp_ext_raw"; JsScale "temperature_ext" "temp_ext_raw" 100;
    JsBlank ].

Definition temperature_water_code : list js_stmt :=
  [ JsComment "Byte 5-6: Temperatura agua 1m DS18B20 (°C * 100) - Little-endian";
    JsReadU16 "temp_water_raw";
    JsScale "temperature_water_1m" "temp_water_raw" 100; JsBlank ].

Definition humidity_code : list js_stmt :=
  [ JsComment "Byte 7-8: Humedad BME280 (% * 100) - Little-endian";
    JsReadU16 "humidity_raw"; JsScale "humidity" "humidity_raw" 100; JsBlank ].

Definition pressure_code : list js_stmt :=
  [ JsComment "Byte 9-10: Presión atmosférica BME280 (hPa * 10) - Little-endian";
    JsReadU16 "pressure_raw"; JsScale "pressure" "pressure_raw" 10; JsBlank ].

Section Programs.

Context `{build : build_config}.

(** The fields decoded for the sensors compiled in, in the order both
    generators emit them. *)
Definition field_code (with_comments : bool) : list js_stmt :=
  let strip (code : list js_stmt) :=
    if with_comments then code
    else filter (fun s => match s with
                          | JsComment _ | JsBlank => false
                          | _ => true
                          end) code in
  strip battery_percent_code
  ++ (if ENABLE_SENSOR_PH then strip ph_code else [])
  ++ (if ENABLE_SENSOR_BME280 then strip temperature_ext_code else [])
  ++ (if ENABLE_SENSOR_DS18B20 then strip temperature_water_code else [])
  ++ (if ENABLE_SENSOR_BME280
      then strip humidity_code ++ strip pressure_code else []).

(** Body of the function [generate_and_print_ttn_decoder] prints. *)
Definition printed_decoder : list js_stmt :=
  decoder_prologue ++ payload_validation_code ++ field_code true
  ++ [JsReturnData].

(** Body of the function [generate_ttn_decoder_string] writes. *)
Definition string_decoder : list js_stmt :=
  decoder_prologue ++ [JsCheckLength 12; JsBlank] ++ field_code false
  ++ [JsBlank; JsReturnAll].

(** Number of payload bytes a decoder body reads. *)
Definition bytes_read (body : list js_stmt) : Z :=
  fold_right (fun s acc =>
                match s with
                | JsReadByte _ => 1 + acc
                | JsReadU16 _ => 2 + acc
                | _ => acc
                end) 0 body.

(** The payload width of the build: one byte of battery and the fields of
    the sensors compiled in (section 4.5 of the specification). *)
Definition configured_payload_width : Z :=
  1 + (if ENABLE_SENSOR_PH then 2 else 0)
    + (if ENABLE_SENSOR_BME280 then 2 + 2 + 2 else 0)
    + (if ENABLE_SENSOR_DS18B20 then 2 else 0).

(** The keys of the decoded object, in the order they are assigned. *)
Definition decoded_fields : list string :=
  ["battery_percent"]
  ++ (if ENABLE_SENSOR_PH then ["ph"] else [])
  ++ (if ENABLE_SENSOR_BME280 then ["temperature_ext"] else [])
  ++ (if ENABLE_SENSOR_DS18B20 then ["temperature_water_1m"] else [])
  ++ (if ENABLE_SENSOR_BME280 then ["humidity"; "pressure"] else []).

End Programs.

(** The property [key] of the object a call returned. *)
Definition outcome_field (key : string) (o : js_outcome) : option js_value :=
  match o with
  | Returned r => js_get key (res_data r)
  | Threw | NoReturn => None
  end.

(** The pH statements of the emitted routine on their own, to decode the two
    bytes of the pH field. *)
Definition ph_field_decoder : list js_stmt :=
  decoder_prologue ++ ph_code ++ [JsReturnData].

(** ** Concrete builds used to run the code *)

(** A plausible config.h for the pH driver. *)
Definition example_config : config_h :=
  {| PH_POWER_PIN := 25;
     PH_ANALOG_PIN := 34;
     PH_POWER_ON_DELAY_MS := 2000;
     PH_READ_SAMPLES := 10;
     PH_READ_DELAY_MS := 10;
     PH_ADC_RESOLUTION := C_double (F64.of_Z 4095);
     PH_REFERENCE_VOLTAGE := C_double (F64.lit 33 10);
     PH_MIN := F32.of_Z 0;
     PH_MAX := F32.of_Z 14;
     PH_DEFAULT_TEMPERATURE := F32.of_Z 25;
     SENSOR_ERROR_PH := F32.of_Z (-1);
     SENSOR_PH_NAME := "pH";
     uint16_overflow := fun _ => 0 |}.

(** A probe that reports the pH [v] whatever the voltage, and whose
    calibration routine swallows the pending serial input. *)
Definition fixed_probe (v : float) : DFRobot_PH :=
  {| ph_state := unit;
     ph_initial := tt;
     ph_begin := fun st => st;
     ph_readPH := fun _ _ _ => v;
     ph_calibration := fun st _ _ _ => (st, [], []) |}.

(** The reference build: every sensor compiled in. *)
Definition reference_build : build_config :=
  {| ENABLE_SENSOR_PH := true;
     ENABLE_SENSOR_BME280 := true;
     ENABLE_SENSOR_DS18B20 := true;
     SHOW_TTN_DECODER := 1;
     PAYLOAD_SIZE_BYTES := 12 |}.

(** A build with the pH sensor only. *)
Definition ph_only_build : build_config :=
  {| ENABLE_SENSOR_PH := true;
     ENABLE_SENSOR_BME280 := false;
     ENABLE_SENSOR_DS18B20 := false;
     SHOW_TTN_DECODER := 1;
     PAYLOAD_SIZE_BYTES := 12 |}.

(** The driver after a successful [sensor_ph_init] on [fixed_probe v]. *)
Definition started (v : float) : world (lib := fixed_probe v) :=
  snd (sensor_ph_init (cfg := example_config) (lib := fixed_probe v)
         (boot (cfg := example_config) (lib := fixed_probe v)
               (fun _ => 2048) [])).

(** The same driver before [sensor_ph_init]: the sensor is not available. *)
Definition unstarted (v : float) : world (lib := fixed_probe v) :=
  boot (cfg := example_config) (lib := fixed_probe v) (fun _ => 2048) [].

(** The driver after [sensor_ph_init], with calibration input waiting. *)
Definition calibrating (v : float) : world (lib := fixed_probe v) :=
  snd (sensor_ph_init (cfg := example_config) (lib := fixed_probe v)
         (boot (cfg := example_config) (lib := fixed_probe v)
               (fun _ => 2048) [69; 78; 84; 69; 82; 80; 72; 10])).

Definition ph_7_42 : float := F32.lit 742 100.

Definition ph_15 : float := F32.of_Z 15.

(** A record whose pH field holds 7. *)
Definition record_7 : sensor_data_t unit :=
  {| ph := F32.of_Z 7; data_rest := tt |}.

(** A local record before anything is stored in it. *)
Definition blank_record : sensor_data_t unit :=
  {| ph := S754_nan; data_rest := tt |}.

(** A payload descriptor with a two-byte buffer. *)
Definition two_byte_config : payload_config_t := {| buffer := [0; 0] |}.

(** ** Sequences of calls and what they maintain *)

(** A line of the serial log is the out-of-range warning of the driver. *)
Definition is_out_of_range_warning (o : serial_out) : bool :=
  match o with
  | Printf fmt _ =>
      String.eqb fmt ("pH: ADVERTENCIA - Lectura fuera de rango: %.2f" ++ LF)
  | Println _ => false
  end.

Section DriverRuns.

Context `{cfg : config_h} `{lib : DFRobot_PH} {other_fields : Type}.

(** The world after a sequence of calls, first call first. *)
Definition run_calls (calls : list (@api_call other_fields)) (w : world)
  : world :=
  fold_left (fun w c => run_call c w) calls w.

(** The rail is off: the flag is clear and the power pin is low. *)
Definition rail_off (w : world) : Prop :=
  sensor_powered w = false /\ gpio_level w PH_POWER_PIN = LOW.

(** The compensation temperature lies in the range
    [sensor_ph_set_temperature] accepts. *)
Definition temperature_in_range (w : world) : bool :=
  SFleb (F32.of_Z (-50)) (temperature w) && SFleb (temperature w) (F32.of_Z 100).

(** [v] lies in the plausible range [[PH_MIN, PH_MAX]]. *)
Definition within_plausible_range (v : float) : bool :=
  SFleb PH_MIN v && SFleb v PH_MAX.

(** The samples [n] reads take, starting at sample [start], added up
    without any wrap-around. *)
Fixpoint exact_sum (adc : nat -> Z) (start n : nat) : Z :=
  match n with
  | O => 0
  | S n' => adc start + exact_sum adc (S start) n'
  end.

End DriverRuns.

(** ** The text of the string generator, and a reference decoder *)

(** Characters in a list of chunks. *)
Definition total_length (chunks : list string) : Z :=
  fold_right (fun c acc => Z.of_nat (String.length c) + acc) 0 chunks.

Section DecoderReference.

Context `{build : build_config}.

(** All the chunks of [generate_ttn_decoder_string], one after the other. *)
Definition decoder_string_text : string :=
  String.concat EmptyString decoder_string_chunks.

(** The 16-bit fields of the build in payload order, each with the divisor
    the emitted routine applies. *)
Definition field_table : list (string * Z) :=
  (if ENABLE_SENSOR_PH then [("ph", 100)] else [])
  ++ (if ENABLE_SENSOR_BME280 then [("temperature_ext", 100)] else [])
  ++ (if ENABLE_SENSOR_DS18B20 then [("temperature_water_1m", 100)] else [])
  ++ (if ENABLE_SENSOR_BME280 then [("humidity", 100); ("pressure", 10)] else []).

End DecoderReference.

(** A field sent low byte first and divided by [divisor]. *)
Definition scaled_little_endian (lo hi divisor : Z) : js_value :=
  JsNumber (F64.div (F64.of_Z (lo + 256 * hi)) (F64.of_Z divisor)).

(** Walks a field table over the bytes that follow the battery byte. *)
Fixpoint decode_u16_fields (fields : list (string * Z)) (bytes : list Z)
  : js_object :=
  match fields, bytes with
  | (name, divisor) :: fields', lo :: hi :: bytes' =>
      (name, scaled_little_endian lo hi divisor)
      :: decode_u16_fields fields' bytes'
  | _, _ => []
  end.

(** The object a decoder that walks the fields in payload order returns. *)
Definition reference_decode (fields : list (string * Z)) (bytes : list Z)
  : js_object :=
  match bytes with
  | [] => []
  | battery :: rest =>
      ("battery_percent", JsNumber (F64.of_Z battery))
      :: decode_u16_fields fields rest
  end.

(** A 16-bit value with its two bytes exchanged. *)
Definition swap16 (v : Z) : Z := v mod 256 * 256 + v / 256.

(** The data object of a call that returned. *)
Definition outcome_data (o : js_outcome) : option js_object :=
  match o with
  | Returned r => Some (res_data r)
  | Threw | NoReturn => None
  end.

Definition is_byte (b : Z) : bool := (0 <=? b) && (b <? 256).

(** Every element is a byte. *)
Definition all_bytes (bytes : list Z) : bool := forallb is_byte bytes.

(** * Properties *)

Section DriverFacts.

Context `{cfg : config_h} `{lib : DFRobot_PH} {other_fields : Type}.

Ltac run :=
  cbv [sensor_ph_init sensor_ph_is_available sensor_ph_retry_init
       sensor_ph_power_on sensor_ph_power_off sensor_ph_set_temperature
       sensor_ph_get_name sensor_ph_set_available_for_testing
       sensor_ph_read_all sensor_ph_get_payload sensor_ph_process_serial
       read_ph_value encode_ph after_samples
       bind ret get modify
       set_sensor_available set_sensor_powered set_temperature
       pinMode digitalWrite analogRead delay serial_write
       Serial_println Serial_printf Serial_available
       ph_sensor_begin ph_sensor_readPH ph_sensor_calibration
       sensor_available sensor_powered temperature ph_sensor gpio_mode
       gpio_level adc_input adc_reads serial_rx serial_tx clock_ms
       fst snd negb].

(** The sampling loop only advances the converter and the clock. *)
Lemma sample_loop_eq (n : nat) : forall (sum : Z) (w : world),
  sample_loop n sum w =
  (sum_samples (adc_input w) (adc_reads w) n sum, after_samples n w).
Proof.
  induction n as [|n IH]; intros sum w.
  - destruct w; simpl; run. f_equal. f_equal. lia.
  - simpl. run. rewrite IH. destruct w; run.
    f_equal. f_equal; lia.
Qed.

(** [sensor_ph_read_all] returns [false] exactly on its guard, and then
    nothing at all has been written. *)
Lemma read_all_false_iff (data : option (sensor_data_t other_fields)) (w : world) :
  fst (fst (sensor_ph_read_all data w)) = false <->
  (sensor_available w = false \/ data = None).
Proof.
  destruct w as [av pw t st gm gl ai ar rx tx ck].
  destruct data as [d|]; destruct av; run.
  - destruct pw; run; rewrite sample_loop_eq; run;
      destruct (SFltb _ PH_MIN || SFltb PH_MAX _); run;
      (split; [discriminate | intros [H|H]; discriminate]).
  - split; auto.
  - split; auto.
  - split; auto.
Qed.

Lemma read_all_guard (data : option (sensor_data_t other_fields)) (w : world) :
  sensor_available w = false \/ data = None ->
  sensor_ph_read_all data w = ((false, data), w).
Proof.
  destruct w as [av pw t st gm gl ai ar rx tx ck].
  destruct data as [d|]; destruct av; run;
    intros [H|H]; try discriminate; reflexivity.
Qed.

(** A read that passes the guard: what it returns and the state it leaves. *)
Lemma read_all_available (d : sensor_data_t other_fields) (w : world) :
  sensor_available w = true ->
  let r := sensor_ph_read_all (Some d) w in
  fst r = (true, Some (set_ph (ph_reading w) d)) /\
  sensor_available (snd r) = true /\
  sensor_powered (snd r) = false /\
  gpio_level (snd r) PH_POWER_PIN = LOW /\
  (out_of_range (ph_reading w) = true ->
   exists before after,
     serial_tx (snd r) =
     (serial_tx w ++ before ++ [out_of_range_warning (ph_reading w)] ++ after)%list).
Proof.
  destruct w as [av pw t st gm gl ai ar rx tx ck]; simpl.
  intros ->. unfold ph_reading, out_of_range, out_of_range_warning.
  destruct pw; run; rewrite sample_loop_eq; run;
    match goal with
    | |- context [SFltb ?v PH_MIN || SFltb PH_MAX ?v] =>
        destruct (SFltb v PH_MIN || SFltb PH_MAX v) eqn:E
    end; run; rewrite Z.eqb_refl;
    (repeat split; try reflexivity; try discriminate; intros _;
     repeat rewrite <- app_assoc; simpl).
  - eexists [_], _. simpl. reflexivity.
  - eexists [_; _; _], _. simpl. reflexivity.
Qed.

(** The payload of an available sensor: the bytes of the fresh reading. *)
Lemma get_payload_available (uninit : sensor_data_t other_fields)
    (c : payload_config_t) (w : world) :
  sensor_available w = true ->
  sensor_ph_get_payload uninit (Some c) w =
  ((2, Some {| buffer :=
                 store_byte 1 (Z.land (ph_field (ph_reading w)) 255)
                   (store_byte 0 (Z.shiftr (ph_field (ph_reading w)) 8)
                      (buffer c)) |}),
   snd (sensor_ph_read_all (Some uninit) w)).
Proof.
  intros Hav.
  destruct (read_all_available uninit w Hav) as [Hr _].
  unfold sensor_ph_get_payload, bind, get. rewrite Hav. simpl.
  destruct (sensor_ph_read_all (Some uninit) w) as [[ok d'] w'].
  simpl in Hr. injection Hr as -> ->. reflexivity.
Qed.

Lemma get_payload_guard (uninit : sensor_data_t other_fields)
    (config : option payload_config_t) (w : world) :
  sensor_available w = false \/ config = None ->
  sensor_ph_get_payload uninit config w = ((0, config), w).
Proof.
  unfold sensor_ph_get_payload, bind, get, ret.
  destruct config as [c|]; [|reflexivity].
  intros [H|H]; [rewrite H; reflexivity | discriminate].
Qed.

(** Two stores into a buffer that has room for them. *)
Lemma store_two_bytes (hi lo : Z) (buf : list Z) :
  (2 <= List.length buf)%nat ->
  store_byte 1 lo (store_byte 0 hi buf) =
  (hi mod 256 :: lo mod 256 :: skipn 2 buf)%list.
Proof.
  destruct buf as [|b0 [|b1 tl]]; simpl; intros H; try lia. reflexivity.
Qed.

Lemma u16_bytes_in_range (v : Z) :
  Z.land v 255 mod 256 = Z.land v 255.
Proof.
  change 255 with (Z.ones 8). rewrite Z.land_ones by lia.
  apply Z.mod_mod. lia.
Qed.

(** A calibration round that passes both guards. *)
Lemma process_serial_active (w : world) :
  sensor_available w = true -> serial_rx w <> [] ->
  let w' := snd (sensor_ph_process_serial w) in
  sensor_available w' = true /\
  sensor_powered w' = false /\
  gpio_level w' PH_POWER_PIN = LOW.
Proof.
  destruct w as [av pw t st gm gl ai ar rx tx ck]; simpl.
  intros -> Hrx. destruct rx as [|b rx]; [congruence|].
  run.
  destruct (Z.of_nat _ =? 0) eqn:E; [apply Z.eqb_eq in E; discriminate E|].
  destruct pw; run;
    match goal with
    | |- context [ph_calibration ?a ?b ?c ?d] =>
        destruct (ph_calibration a b c d) as [[st' rx'] out']
    end; run; rewrite Z.eqb_refl; repeat split.
Qed.

Lemma process_serial_guard (w : world) :
  sensor_available w = false \/ serial_rx w = [] ->
  sensor_ph_process_serial w = (tt, w).
Proof.
  destruct w as [av pw t st gm gl ai ar rx tx ck]; simpl.
  intros [->| ->]; run; [reflexivity|].
  destruct av; reflexivity.
Qed.

Lemma power_on_energizes (w : world) :
  sensor_powered (snd (sensor_ph_power_on w)) = true.
Proof. destruct w as [av [] t st gm gl ai ar rx tx ck]; reflexivity. Qed.

Lemma read_all_keeps_availability
    (data : option (sensor_data_t other_fields)) (w : world) :
  sensor_available (snd (sensor_ph_read_all data w)) = sensor_available w.
Proof.
  destruct (sensor_available w) eqn:Hav; destruct data as [d|].
  - apply (read_all_available d w Hav).
  - rewrite read_all_guard by auto. exact Hav.
  - rewrite read_all_guard by auto. exact Hav.
  - rewrite read_all_guard by auto. exact Hav.
Qed.

Lemma get_payload_keeps_availability (uninit : sensor_data_t other_fields)
    (config : option payload_config_t) (w : world) :
  sensor_available (snd (sensor_ph_get_payload uninit config w)) =
  sensor_available w.
Proof.
  destruct (sensor_available w) eqn:Hav; destruct config as [c|].
  - rewrite get_payload_available by exact Hav. simpl.
    rewrite read_all_keeps_availability. exact Hav.
  - rewrite get_payload_guard by auto. exact Hav.
  - rewrite get_payload_guard by auto. exact Hav.
  - rewrite get_payload_guard by auto. exact Hav.
Qed.

Lemma process_serial_keeps_availability (w : world) :
  sensor_available (snd (sensor_ph_process_serial w)) = sensor_available w.
Proof.
  destruct (sensor_available w) eqn:Hav.
  - destruct (serial_rx w) eqn:Hrx.
    + rewrite process_serial_guard by auto. exact Hav.
    + apply process_serial_active; [exact Hav | rewrite Hrx; discriminate].
  - rewrite process_serial_guard by auto. exact Hav.
Qed.

(** ** The claims about the driver *)

(** C10.  [sensor_ph_init] cannot fail: it returns [true] from every state
    and leaves the sensor available, so [sensor_ph_is_available] called right
    after it answers [true]. *)
Theorem sensor_ph_init_always_available (w : world) :
  fst (sensor_ph_init w) = true /\
  sensor_available (snd (sensor_ph_init w)) = true /\
  fst (sensor_ph_is_available (snd (sensor_ph_init w))) = true.
Proof. destruct w; run; repeat split. Qed.

(** C7.  From the available state [sensor_ph_retry_init] returns [true] and
    leaves the whole world as it was.  From the unavailable state it
    announces the retry and runs [sensor_ph_init]; the sensor is available
    afterwards exactly when that call reported success. *)
Theorem retry_init_only_when_unavailable (w : world) :
  (sensor_available w = true -> sensor_ph_retry_init w = (true, w)) /\
  (sensor_available w = false ->
   sensor_ph_retry_init w =
   sensor_ph_init
     (snd (Serial_println "Reintentando inicializacion del sensor de pH..." w))
   /\ (sensor_available (snd (sensor_ph_retry_init w)) = true <->
       fst (sensor_ph_retry_init w) = true)).
Proof.
  destruct w as [av pw t st gm gl ai ar rx tx ck]; simpl; split; intros ->.
  - reflexivity.
  - split; [reflexivity|]. run. split; reflexivity.
Qed.

(** C9.  Reading never changes the availability flag: [sensor_ph_read_all],
    [sensor_ph_get_payload] and [sensor_ph_process_serial] return with
    [sensor_available] as they found it, whatever the outcome of the read.
    Among all the functions of the driver, a call that changes the flag is a
    call of [sensor_ph_init], [sensor_ph_retry_init] or
    [sensor_ph_set_available_for_testing]. *)
Theorem reads_never_change_availability :
  (forall (data : option (sensor_data_t other_fields)) (w : world),
     sensor_available (snd (sensor_ph_read_all data w)) = sensor_available w) /\
  (forall (uninit : sensor_data_t other_fields) config (w : world),
     sensor_available (snd (sensor_ph_get_payload uninit config w)) =
     sensor_available w) /\
  (forall w : world,
     sensor_available (snd (sensor_ph_process_serial w)) = sensor_available w) /\
  (forall (c : @api_call other_fields) (w : world),
     sensor_available (run_call c w) <> sensor_available w ->
     writes_availability c = true).
Proof.
  split; [exact read_all_keeps_availability|].
  split; [exact get_payload_keeps_availability|].
  split; [exact process_serial_keeps_availability|].
  intros c w H. destruct c; try reflexivity; exfalso; apply H; simpl.
  - reflexivity.
  - unfold sensor_ph_set_temperature.
    destruct (SFleb _ temp && SFleb temp _); destruct w; reflexivity.
  - apply read_all_keeps_availability.
  - apply get_payload_keeps_availability.
  - reflexivity.
  - apply process_serial_keeps_availability.
Qed.

(** C8.  [sensor_ph_power_on] leaves the rail flagged as powered.  A call of
    [sensor_ph_read_all] or [sensor_ph_process_serial] that gets past its
    guard, the only way to reach [sensor_ph_power_on], returns with
    [sensor_powered] cleared and the power pin low; a call stopped by its
    guard changes nothing.  So neither function returns with the rail on
    when it was off at entry. *)
Theorem power_rail_released_on_return :
  (forall w : world, sensor_powered (snd (sensor_ph_power_on w)) = true) /\
  (forall (data : option (sensor_data_t other_fields)) (w : world),
     let w' := snd (sensor_ph_read_all data w) in
     (sensor_available w = true -> data <> None ->
      sensor_powered w' = false /\ gpio_level w' PH_POWER_PIN = LOW) /\
     (sensor_available w = false \/ data = None -> w' = w) /\
     (sensor_powered w = false -> sensor_powered w' = false)) /\
  (forall w : world,
     let w' := snd (sensor_ph_process_serial w) in
     (sensor_available w = true -> serial_rx w <> [] ->
      sensor_powered w' = false /\ gpio_level w' PH_POWER_PIN = LOW) /\
     (sensor_available w = false \/ serial_rx w = [] -> w' = w) /\
     (sensor_powered w = false -> sensor_powered w' = false)).
Proof.
  split; [exact power_on_energizes|]. split.
  - intros data w w'. subst w'.
    assert (Hmain : sensor_available w = true -> data <> None ->
                    sensor_powered (snd (sensor_ph_read_all data w)) = false /\
                    gpio_level (snd (sensor_ph_read_all data w)) PH_POWER_PIN
                    = LOW).
    { intros Hav Hd. destruct data as [d|]; [|congruence].
      destruct (read_all_available d w Hav) as (_ & _ & Hp & Hl & _).
      split; assumption. }
    split; [exact Hmain|]. split.
    + intros Hg. rewrite read_all_guard by exact Hg. reflexivity.
    + intros Hoff.
      destruct (sensor_available w) eqn:Hav; destruct data as [d|];
        try (rewrite read_all_guard by auto; exact Hoff).
      apply Hmain; [reflexivity | discriminate].
  - intros w w'. subst w'.
    assert (Hmain : sensor_available w = true -> serial_rx w <> [] ->
                    sensor_powered (snd (sensor_ph_process_serial w)) = false /\
                    gpio_level (snd (sensor_ph_process_serial w)) PH_POWER_PIN
                    = LOW).
    { intros Hav Hrx.
      destruct (process_serial_active w Hav Hrx) as (_ & Hp & Hl).
      split; assumption. }
    split; [exact Hmain|]. split.
    + intros Hg. rewrite process_serial_guard by exact Hg. reflexivity.
    + intros Hoff.
      destruct (sensor_available w) eqn:Hav;
        [|rewrite process_serial_guard by auto; exact Hoff].
      destruct (serial_rx w) eqn:Hrx;
        [rewrite process_serial_guard by auto; exact Hoff|].
      apply Hmain; [reflexivity | discriminate].
Qed.

(** X19.  With the sensor available and a record to fill,
    [sensor_ph_read_all] returns [true] whatever value it read and stores
    that value, unchanged, in the pH field, leaving the other fields alone;
    when the value compares below [PH_MIN] or above [PH_MAX] it prints the
    out-of-range warning with that value.  It returns [false] only from its
    guard: the sensor is unavailable or there is no record. *)
Theorem every_reading_is_kept
    (d : sensor_data_t other_fields) (w : world) :
  sensor_available w = true ->
  let r := sensor_ph_read_all (Some d) w in
  fst (fst r) = true /\
  (exists d',
     snd (fst r) = Some d' /\ ph d' = ph_reading w /\
     data_rest d' = data_rest d) /\
  (SFltb (ph_reading w) PH_MIN = true \/ SFltb PH_MAX (ph_reading w) = true ->
   exists before after,
     serial_tx (snd r) =
     (serial_tx w ++ before ++ [out_of_range_warning (ph_reading w)] ++ after)%list)
  /\
  (forall (data' : option (sensor_data_t other_fields)) (w' : world),
     fst (fst (sensor_ph_read_all data' w')) = false <->
     (sensor_available w' = false \/ data' = None)).
Proof.
  intros Hav r. subst r.
  destruct (read_all_available d w Hav) as (Hr & _ & _ & _ & Hlog).
  rewrite Hr. cbn [fst snd].
  split; [reflexivity|].
  split; [eexists; repeat split|].
  split; [|exact read_all_false_iff].
  intros Hout. apply Hlog. unfold out_of_range.
  destruct Hout as [-> | ->]; [reflexivity | apply orb_true_r].
Qed.

(** C5.  [sensor_ph_get_payload] returns 0 exactly when the sensor is
    unavailable or the descriptor pointer is null.  Otherwise it returns 2
    and stores the two bytes of the pH field in the buffer.  When the read
    reports failure the field is computed from [SENSOR_ERROR_PH] instead of
    the reading, and the function still stores two bytes and returns 2. *)
Theorem get_payload_width (uninit : sensor_data_t other_fields)
    (config : option payload_config_t) (w : world) :
  let r := sensor_ph_get_payload uninit config w in
  (fst (fst r) = 0 <-> (sensor_available w = false \/ config = None)) /\
  (forall c, sensor_available w = true -> config = Some c ->
     fst (fst r) = 2 /\
     exists c', snd (fst r) = Some c' /\
       ((2 <= List.length (buffer c))%nat ->
        buffer c' =
        (u16_big_endian (ph_field (ph_reading w)) ++ skipn 2 (buffer c))%list)) /\
  (forall (data : sensor_data_t other_fields) (c : payload_config_t),
     encode_ph false data c = encode_ph true (set_ph SENSOR_ERROR_PH data) c /\
     fst (encode_ph false data c) = 2 /\
     ((2 <= List.length (buffer c))%nat ->
      buffer (snd (encode_ph false data c)) =
      (u16_big_endian (ph_field SENSOR_ERROR_PH) ++ skipn 2 (buffer c))%list)).
Proof.
  intros r. subst r. split; [|split].
  - destruct (sensor_available w) eqn:Hav; destruct config as [c|].
    + rewrite get_payload_available by exact Hav. simpl.
      split; [discriminate | intros [H|H]; discriminate].
    + rewrite get_payload_guard by auto. simpl. split; auto.
    + rewrite get_payload_guard by auto. simpl. split; auto.
    + rewrite get_payload_guard by auto. simpl. split; auto.
  - intros c Hav ->. rewrite get_payload_available by exact Hav.
    cbn [fst snd]. split; [reflexivity|]. eexists. split; [reflexivity|].
    intros Hlen. cbn [buffer]. rewrite store_two_bytes by exact Hlen.
    unfold u16_big_endian. rewrite u16_bytes_in_range. reflexivity.
  - intros data c. split; [reflexivity|]. split; [reflexivity|].
    intros Hlen. unfold encode_ph. cbn [buffer snd negb ph set_ph].
    rewrite store_two_bytes by exact Hlen.
    unfold u16_big_endian, ph_field. rewrite u16_bytes_in_range. reflexivity.
Qed.

(** C4, as the code has it.  When [sensor_ph_read_all] returns [false] it has
    written nothing: the record behind the pointer and the whole world are as
    before the call.  The sentinel is put in by the caller:
    [sensor_ph_get_payload] encodes [SENSOR_ERROR_PH] when the read reports
    failure. *)
Theorem failed_read_writes_nothing
    (data : option (sensor_data_t other_fields)) (w : world) :
  fst (fst (sensor_ph_read_all data w)) = false ->
  snd (fst (sensor_ph_read_all data w)) = data /\
  snd (sensor_ph_read_all data w) = w /\
  (forall (d : sensor_data_t other_fields) (c : payload_config_t),
     encode_ph false d c = encode_ph true (set_ph SENSOR_ERROR_PH d) c).
Proof.
  intros H. apply read_all_false_iff in H.
  rewrite read_all_guard by exact H. repeat split.
Qed.

End DriverFacts.

(** ** The emitted decoder *)

Section DecoderFacts.

Context `{build : build_config}.

(** The lines [generate_and_print_ttn_decoder] prints between its banners are
    the rendering of [printed_decoder]. *)
Lemma printed_decoder_is_emitted :
  SHOW_TTN_DECODER <> 0 ->
  exists banner trailer,
    generate_and_print_ttn_decoder =
    (print_configuration_info ++ map Println banner
     ++ map Println (render_function printed_decoder)
     ++ map Println trailer)%list.
Proof.
  intros Hshow. unfold generate_and_print_ttn_decoder.
  destruct (SHOW_TTN_DECODER =? 0) eqn:E; [apply Z.eqb_eq in E; contradiction|].
  exists (firstn 10 (map (fun o => match o with
                                   | Println l => l
                                   | Printf f _ => f
                                   end) print_decoder_header)).
  exists (skipn 2 (map (fun o => match o with
                                 | Println l => l
                                 | Printf f _ => f
                                 end) print_decoder_footer)).
  f_equal. unfold printed_decoder, field_code.
  destruct build as [p b d sh sz]; simpl.
  destruct p, b, d; vm_compute; reflexivity.
Qed.

Lemma substring_whole (s : string) : forall n : nat,
  (String.length s <= n)%nat -> substring 0 n s = s.
Proof.
  induction s as [|c s IH]; intros [|n] H; simpl in *; try reflexivity; try lia.
  f_equal. apply IH. lia.
Qed.

(** A chunk that fits the remaining room is appended whole. *)
Lemma snprintf_at_fits (max_size : Z) (text : string) (offset : Z)
    (chunk : string) :
  0 <= offset ->
  offset + Z.of_nat (String.length chunk) < max_size ->
  max_size <= 65536 ->
  snprintf_at max_size (Some (text, offset)) chunk =
  Some (text ++ chunk, offset + Z.of_nat (String.length chunk)).
Proof.
  intros H0 Hfit Hmax. unfold snprintf_at.
  destruct (max_size - offset <? 0) eqn:E1; [apply Z.ltb_lt in E1; lia|].
  destruct (max_size - offset =? 0) eqn:E2; [apply Z.eqb_eq in E2; lia|].
  rewrite substring_whole by lia.
  rewrite Z.mod_small by lia. reflexivity.
Qed.

Ltac snprintf_step :=
  match goal with
  | |- context [snprintf_at ?ms (Some (?t, ?o)) ?c] =>
      let n := eval vm_compute in (Z.of_nat (String.length c)) in
      let o' := eval vm_compute in (o + n) in
      rewrite (snprintf_at_fits ms t o c)
        by (change (Z.of_nat (String.length c)) with n; lia);
      change (o + Z.of_nat (String.length c)) with o'
  end.

(** In a buffer of 1000 characters or more, [generate_ttn_decoder_string]
    leaves the rendering of [string_decoder] and returns its length. *)
Lemma string_decoder_is_emitted (initial : string) (max_size : Z) :
  1000 <= max_size <= 65535 ->
  generate_ttn_decoder_string (Some initial) max_size =
  Some (Z.of_nat (String.length (unlines (render_function string_decoder))),
        Some (unlines (render_function string_decoder))).
Proof.
  intros Hmax. unfold generate_ttn_decoder_string.
  destruct (max_size <? 100) eqn:E; [apply Z.ltb_lt in E; lia|].
  unfold decoder_string_chunks, string_decoder, field_code.
  destruct build as [p b d sh sz]; simpl ENABLE_SENSOR_PH;
    simpl ENABLE_SENSOR_BME280; simpl ENABLE_SENSOR_DS18B20.
  destruct p, b, d; cbn [app fold_left]; repeat snprintf_step;
    vm_compute; reflexivity.
Qed.

(** C3, as the code has it.  Whatever the build, both emitted routines
    compare the payload length with the constant 12.  On any other length
    they return at once: one warning, an empty error list and an empty data
    object, no field decoded.  On a 12-byte payload they decode the fields of
    the sensors compiled in, in the fixed order, and return them without a
    warning. *)
Theorem emitted_decoder_checks_twelve_bytes (bytes : list Z) :
  (Z.of_nat (List.length bytes) <> 12 ->
   decodeUplink printed_decoder bytes =
   Returned {| res_data := [];
               res_warnings :=
                 Some ["Payload size should be 12 bytes, got "
                       ++ decimal (Z.of_nat (List.length bytes))];
               res_errors := Some [] |} /\
   decodeUplink string_decoder bytes =
   Returned {| res_data := [];
               res_warnings := Some ["Payload size should be 12 bytes"];
               res_errors := Some [] |}) /\
  (Z.of_nat (List.length bytes) = 12 ->
   (exists data,
      decodeUplink printed_decoder bytes =
      Returned {| res_data := data;
                  res_warnings := None; res_errors := None |} /\
      map fst data = decoded_fields) /\
   (exists data,
      decodeUplink string_decoder bytes =
      Returned {| res_data := data;
                  res_warnings := Some []; res_errors := Some [] |} /\
      map fst data = decoded_fields)).
Proof.
  split.
  - intros Hlen. apply Z.eqb_neq in Hlen.
    unfold decodeUplink, printed_decoder, string_decoder, decoder_prologue,
      payload_validation_code.
    cbn [app exec_body exec_stmt env_bytes env_data empty_env].
    rewrite Hlen. split; reflexivity.
  - intros Hlen.
    assert (Hn : List.length bytes = 12%nat) by lia. clear Hlen.
    do 12 (destruct bytes as [|? bytes]; [discriminate Hn|]).
    destruct bytes; [|discriminate Hn]. clear Hn.
    destruct build as [p b d sh sz].
    destruct p, b, d;
      lazy - [js_index js_bitor js_shl js_div F64.of_Z];
      split; eexists; split; reflexivity.
Qed.

End DecoderFacts.

(** ** The driver and the decoder on concrete inputs *)

(** C1.  A probe reading 7.42 gives the field value 742 = 0x02E6.  The
    driver stores 0x02 in [buffer[0]] and 0xE6 in [buffer[1]], high byte
    first, where the little-endian layout the decoder documents has 0xE6
    first. *)
Theorem ph_payload_high_byte_first :
  ph_field (cfg := example_config) ph_7_42 = 742 /\
  fst (sensor_ph_get_payload (cfg := example_config)
         (lib := fixed_probe ph_7_42)
         blank_record (Some two_byte_config) (started ph_7_42))
  = (2, Some {| buffer := [2; 230] |}) /\
  u16_little_endian 742 = [230; 2].
Proof. vm_compute. repeat split. Qed.

(** C2.  The two bytes the driver sends for pH 7.42 are decoded by the
    emitted pH statements to 58882 / 100 = 588.82, which is more than 0.01
    above 7.42; the complete printed decoder of the reference build reports
    the same value for a 12-byte payload carrying these two bytes. *)
Theorem ph_round_trip_breaks :
  fst (sensor_ph_get_payload (cfg := example_config)
         (lib := fixed_probe ph_7_42)
         blank_record (Some two_byte_config) (started ph_7_42))
  = (2, Some {| buffer := [2; 230] |}) /\
  decodeUplink ph_field_decoder [2; 230] =
  Returned {| res_data := [("ph", JsNumber (F64.lit 58882 100))];
              res_warnings := None; res_errors := None |} /\
  SFltb (F64.add ph_7_42 (F64.lit 1 100)) (F64.lit 58882 100) = true /\
  outcome_field "ph"
    (decodeUplink (printed_decoder (build := reference_build))
       [87; 2; 230; 0; 0; 0; 0; 0; 0; 0; 0; 0])
  = Some (JsNumber (F64.lit 58882 100)).
Proof. vm_compute. repeat split. Qed.

(** C6.  A probe that reports NaN: the reading is not in
    [[PH_MIN, PH_MAX]], [sensor_ph_read_all] stores it and returns [true],
    and the serial log has no out-of-range warning, because NaN compares
    neither below [PH_MIN] nor above [PH_MAX].  A reading of 15, above
    [PH_MAX] = 14, is stored with the warning. *)
Theorem nan_reading_is_not_flagged :
  within_plausible_range (cfg := example_config)
    (ph_reading (cfg := example_config) (started S754_nan)) = false /\
  fst (sensor_ph_read_all (cfg := example_config) (lib := fixed_probe S754_nan)
         (Some record_7) (started S754_nan))
  = (true, Some {| ph := S754_nan; data_rest := tt |}) /\
  existsb is_out_of_range_warning
    (serial_tx
       (snd (sensor_ph_read_all (cfg := example_config)
               (lib := fixed_probe S754_nan)
               (Some record_7) (started S754_nan)))) = false /\
  within_plausible_range (cfg := example_config)
    (ph_reading (cfg := example_config) (started ph_15)) = false /\
  fst (sensor_ph_read_all (cfg := example_config) (lib := fixed_probe ph_15)
         (Some record_7) (started ph_15))
  = (true, Some {| ph := ph_15; data_rest := tt |}) /\
  existsb is_out_of_range_warning
    (serial_tx
       (snd (sensor_ph_read_all (cfg := example_config)
               (lib := fixed_probe ph_15)
               (Some record_7) (started ph_15)))) = true.
Proof. vm_compute. repeat split. Qed.

(** C3 fails.  In a build with the pH sensor only the payload is 3 bytes
    wide and the emitted routine reads 3 bytes, yet a 3-byte payload is
    answered with the warning about 12 bytes and an empty data object; a
    5-byte payload, of the wrong width for this build, is answered the same
    way, no field decoded.  In the reference build, 11 bytes wide, a 12-byte
    payload passes without a warning. *)
Lemma decoder_length_check_counterexample :
  configured_payload_width (build := ph_only_build) = 3 /\
  bytes_read (printed_decoder (build := ph_only_build)) = 3 /\
  decodeUplink (printed_decoder (build := ph_only_build)) [87; 230; 2] =
  Returned {| res_data := [];
              res_warnings := Some ["Payload size should be 12 bytes, got 3"];
              res_errors := Some [] |} /\
  decodeUplink (printed_decoder (build := ph_only_build)) [87; 230; 2; 0; 0] =
  Returned {| res_data := [];
              res_warnings := Some ["Payload size should be 12 bytes, got 5"];
              res_errors := Some [] |} /\
  configured_payload_width (build := reference_build) = 11 /\
  (exists data,
     decodeUplink (printed_decoder (build := reference_build))
       [87; 230; 2; 0; 0; 0; 0; 0; 0; 0; 0; 0] =
     Returned {| res_data := data; res_warnings := None; res_errors := None |}).
Proof.
  repeat split; try (vm_compute; reflexivity).
  eexists. vm_compute. reflexivity.
Qed.

(** The 3-byte payload of the pH-only build, through the string decoder. *)
Lemma emitted_decoder_checks_twelve_bytes_witness :
  Z.of_nat (List.length [87; 230; 2]) <> 12 /\
  decodeUplink (string_decoder (build := ph_only_build)) [87; 230; 2] =
  Returned {| res_data := [];
              res_warnings := Some ["Payload size should be 12 bytes"];
              res_errors := Some [] |}.
Proof.
  split; [discriminate|].
  apply (proj1 (emitted_decoder_checks_twelve_bytes
                  (build := ph_only_build) [87; 230; 2])).
  discriminate.
Defined.

(** C4 fails.  With the sensor unavailable [sensor_ph_read_all] returns
    [false] and the record still holds 7, not [SENSOR_ERROR_PH]. *)
Lemma failed_read_counterexample :
  fst (sensor_ph_read_all (cfg := example_config) (lib := fixed_probe ph_7_42)
         (Some record_7) (unstarted ph_7_42))
  = (false, Some record_7) /\
  ph record_7 <> SENSOR_ERROR_PH (config_h := example_config).
Proof. split; [reflexivity | vm_compute; discriminate]. Qed.

(** A read before [sensor_ph_init]: refused, the record still holds 7. *)
Lemma failed_read_writes_nothing_witness :
  fst (fst (sensor_ph_read_all (cfg := example_config)
              (lib := fixed_probe ph_7_42)
              (Some record_7) (unstarted ph_7_42))) = false /\
  snd (fst (sensor_ph_read_all (cfg := example_config)
              (lib := fixed_probe ph_7_42)
              (Some record_7) (unstarted ph_7_42))) = Some record_7.
Proof.
  split; [reflexivity|].
  apply (failed_read_writes_nothing (cfg := example_config)
           (lib := fixed_probe ph_7_42) (Some record_7) (unstarted ph_7_42)).
  reflexivity.
Defined.

(** The payload of a started driver is two bytes long. *)
Lemma get_payload_width_witness :
  sensor_available (started ph_7_42) = true /\
  fst (fst (sensor_ph_get_payload (cfg := example_config)
              (lib := fixed_probe ph_7_42)
              blank_record (Some two_byte_config) (started ph_7_42))) = 2.
Proof.
  split; [reflexivity|].
  destruct (get_payload_width (cfg := example_config)
              (lib := fixed_probe ph_7_42)
              blank_record (Some two_byte_config) (started ph_7_42))
    as (_ & H & _).
  apply (H two_byte_config); reflexivity.
Defined.

(** A probe reporting pH 15, above [PH_MAX] = 14: the read succeeds and the
    record holds 15. *)
Lemma every_reading_is_kept_witness :
  sensor_available (started ph_15) = true /\
  fst (fst (sensor_ph_read_all (cfg := example_config)
              (lib := fixed_probe ph_15)
              (Some record_7) (started ph_15))) = true /\
  exists d',
    snd (fst (sensor_ph_read_all (cfg := example_config)
                (lib := fixed_probe ph_15)
                (Some record_7) (started ph_15))) = Some d' /\
    ph d' = ph_reading (cfg := example_config) (started ph_15) /\
    data_rest d' = data_rest record_7.
Proof.
  split; [reflexivity|].
  destruct (every_reading_is_kept (cfg := example_config)
              (lib := fixed_probe ph_15) record_7 (started ph_15) eq_refl)
    as (Htrue & Hstore & _).
  split; [exact Htrue | exact Hstore].
Defined.

(** Retrying on a started driver changes nothing. *)
Lemma retry_init_only_when_unavailable_witness :
  sensor_available (started ph_7_42) = true /\
  sensor_ph_retry_init (cfg := example_config) (lib := fixed_probe ph_7_42)
    (started ph_7_42) = (true, started ph_7_42).
Proof.
  split; [reflexivity|].
  apply (retry_init_only_when_unavailable (cfg := example_config)
           (lib := fixed_probe ph_7_42) (started ph_7_42)).
  reflexivity.
Defined.

(** A calibration round and a read both return with the rail off. *)
Lemma power_rail_released_on_return_witness :
  sensor_available (calibrating ph_7_42) = true /\
  serial_rx (calibrating ph_7_42) <> [] /\
  sensor_powered
    (snd (sensor_ph_process_serial (cfg := example_config)
            (lib := fixed_probe ph_7_42) (calibrating ph_7_42))) = false /\
  sensor_powered
    (snd (sensor_ph_read_all (cfg := example_config)
            (lib := fixed_probe ph_7_42)
            (Some record_7) (started ph_7_42))) = false.
Proof.
  split; [reflexivity|]. split; [discriminate|].
  destruct (power_rail_released_on_return (cfg := example_config)
              (lib := fixed_probe ph_7_42) (other_fields := unit))
    as (_ & Hread & Hserial).
  destruct (Hserial (calibrating ph_7_42)) as (Hs & _ & _).
  destruct (Hread (Some record_7) (started ph_7_42)) as (Hr & _ & _).
  split.
  - apply Hs; [reflexivity | discriminate].
  - apply Hr; [reflexivity | discriminate].
Defined.

(** A read on a started driver leaves it available. *)
Lemma reads_never_change_availability_witness :
  sensor_available
    (run_call (cfg := example_config) (lib := fixed_probe ph_7_42)
       (Call_read_all (Some record_7)) (started ph_7_42))
  = sensor_available (started ph_7_42).
Proof.
  apply (proj1 (reads_never_change_availability (cfg := example_config)
                  (lib := fixed_probe ph_7_42) (other_fields := unit))).
Defined.

(** ** Further properties of the driver *)

Section DriverRunFacts.

Context `{cfg : config_h} `{lib : DFRobot_PH} {other_fields : Type}.

Ltac step :=
  cbv [sensor_ph_init sensor_ph_is_available sensor_ph_retry_init
       sensor_ph_power_on sensor_ph_power_off sensor_ph_set_temperature
       sensor_ph_get_name sensor_ph_set_available_for_testing
       sensor_ph_read_all sensor_ph_get_payload sensor_ph_process_serial
       read_ph_value encode_ph after_samples
       bind ret get modify
       set_sensor_available set_sensor_powered set_temperature
       pinMode digitalWrite analogRead delay serial_write
       Serial_println Serial_printf Serial_available
       ph_sensor_begin ph_sensor_readPH ph_sensor_calibration
       sensor_available sensor_powered temperature ph_sensor gpio_mode
       gpio_level adc_input adc_reads serial_rx serial_tx clock_ms
       fst snd negb].

(** A read keeps the compensation temperature and the calibration state of
    the library, and does not look at the record it fills. *)
Lemma read_all_frame (data : option (sensor_data_t other_fields)) (w : world) :
  temperature (snd (sensor_ph_read_all data w)) = temperature w /\
  ph_sensor (snd (sensor_ph_read_all data w)) = ph_sensor w.
Proof.
  destruct (sensor_available w) eqn:Hav; destruct data as [d|];
    try (rewrite read_all_guard by auto; split; reflexivity).
  destruct w as [av pw t st gm gl ai ar rx tx ck]; simpl in Hav; subst av.
  destruct pw; step; rewrite sample_loop_eq; step;
    destruct (SFltb _ PH_MIN || SFltb PH_MAX _); step; split; reflexivity.
Qed.

Lemma read_all_world_independent (d1 d2 : sensor_data_t other_fields)
    (w : world) :
  snd (sensor_ph_read_all (Some d1) w) = snd (sensor_ph_read_all (Some d2) w).
Proof.
  destruct w as [av pw t st gm gl ai ar rx tx ck].
  destruct av; [|reflexivity].
  destruct pw; step; rewrite sample_loop_eq; step;
    destruct (SFltb _ PH_MIN || SFltb PH_MAX _); reflexivity.
Qed.

Lemma process_serial_keeps_temperature (w : world) :
  temperature (snd (sensor_ph_process_serial w)) = temperature w.
Proof.
  destruct (sensor_available w) eqn:Hav;
    [|rewrite process_serial_guard by auto; reflexivity].
  destruct (serial_rx w) eqn:Hrx;
    [rewrite process_serial_guard by auto; reflexivity|].
  destruct w as [av pw t st gm gl ai ar rx tx ck]; simpl in Hav, Hrx.
  subst av rx. step.
  destruct (Z.of_nat _ =? 0) eqn:E; [apply Z.eqb_eq in E; discriminate E|].
  destruct pw; step;
    match goal with
    | |- context [ph_calibration ?a ?b ?c ?d] =>
        destruct (ph_calibration a b c d) as [[st' rx'] out']
    end; reflexivity.
Qed.

Lemma run_call_keeps_rail_off (c : @api_call other_fields) (w : world) :
  rail_off w -> rail_off (run_call c w).
Proof.
  intros [Hp Hl]. destruct c; simpl.
  - destruct w; split; [exact Hp | exact Hl].
  - split; assumption.
  - unfold sensor_ph_retry_init, bind, get.
    destruct (sensor_available w); [split; assumption|].
    destruct w; split; [exact Hp | exact Hl].
  - unfold sensor_ph_set_temperature.
    destruct (SFleb _ temp && SFleb temp _); destruct w; split; assumption.
  - destruct (sensor_available w) eqn:Hav; destruct data as [d|];
      try (rewrite read_all_guard by auto; split; assumption).
    destruct (read_all_available d w Hav) as (_ & _ & Hp' & Hl' & _).
    split; assumption.
  - destruct (sensor_available w) eqn:Hav; destruct config as [pc|];
      try (rewrite get_payload_guard by auto; split; assumption).
    rewrite get_payload_available by exact Hav. cbn [snd].
    destruct (read_all_available uninit w Hav) as (_ & _ & Hp' & Hl' & _).
    split; assumption.
  - split; assumption.
  - destruct w; split; [exact Hp | exact Hl].
  - destruct (sensor_available w) eqn:Hav;
      [|rewrite process_serial_guard by auto; split; assumption].
    destruct (serial_rx w) eqn:Hrx;
      [rewrite process_serial_guard by auto; split; assumption|].
    destruct (process_serial_active w Hav) as (_ & Hp' & Hl').
    { rewrite Hrx. discriminate. }
    split; assumption.
Qed.

(** X1.  Whatever sequence of driver functions the firmware calls after
    boot, every call returns with the sensor rail off: the powered flag is
    clear and the power pin is low. *)
Theorem rail_off_between_calls (calls : list (@api_call other_fields))
    (adc : nat -> Z) (rx : list Z) :
  rail_off (run_calls calls (boot adc rx)).
Proof.
  assert (H : forall (l : list (@api_call other_fields)) (w : world),
             rail_off w -> rail_off (run_calls l w)).
  { induction l as [|c l IH]; intros w Hw; [exact Hw|].
    apply IH. apply run_call_keeps_rail_off. exact Hw. }
  apply H. split; reflexivity.
Qed.

Lemma run_call_keeps_temperature_in_range (c : @api_call other_fields)
    (w : world) :
  temperature_in_range w = true -> temperature_in_range (run_call c w) = true.
Proof.
  unfold temperature_in_range. intros H. destruct c; simpl.
  - destruct w; exact H.
  - exact H.
  - unfold sensor_ph_retry_init, bind, get.
    destruct (sensor_available w); [exact H|]. destruct w; exact H.
  - unfold sensor_ph_set_temperature.
    destruct (SFleb _ temp && SFleb temp _) eqn:E; [|exact H].
    destruct w; exact E.
  - rewrite (proj1 (read_all_frame data w)). exact H.
  - destruct (sensor_available w) eqn:Hav; destruct config as [pc|];
      try (rewrite get_payload_guard by auto; exact H).
    rewrite get_payload_available by exact Hav. cbn [snd].
    rewrite (proj1 (read_all_frame (Some uninit) w)). exact H.
  - exact H.
  - destruct w; exact H.
  - rewrite process_serial_keeps_temperature. exact H.
Qed.

(** X2.  The compensation temperature never leaves the range -50..100: if it
    is in range, it is in range after any sequence of driver calls, because
    [sensor_ph_set_temperature] ignores every other value, NaN included. *)
Theorem temperature_stays_in_range (calls : list (@api_call other_fields))
    (w : world) :
  temperature_in_range w = true ->
  temperature_in_range (run_calls calls w) = true.
Proof.
  revert w. induction calls as [|c l IH]; intros w Hw; [exact Hw|].
  apply IH. apply run_call_keeps_temperature_in_range. exact Hw.
Qed.

(** X3.  [sensor_ph_retry_init] cannot fail: from every state it returns
    [true] and leaves the sensor available.  In particular a sensor forced
    unavailable by the testing override is available again after one retry. *)
Theorem retry_init_never_fails (w : world) :
  fst (sensor_ph_retry_init w) = true /\
  sensor_available (snd (sensor_ph_retry_init w)) = true /\
  (forall b : bool,
     sensor_available
       (snd (sensor_ph_retry_init
               (snd (sensor_ph_set_available_for_testing b w)))) = true).
Proof.
  destruct w as [av pw t st gm gl ai ar rx tx ck].
  split; [destruct av; reflexivity|].
  split; [destruct av; reflexivity|].
  intros []; reflexivity.
Qed.

(** X4.  A read on an available sensor whose rail is off takes exactly
    [PH_READ_SAMPLES] samples from the converter and blocks for the power-on
    delay, one sampling delay per sample and the fixed second after
    power-off. *)
Theorem read_all_cost (d : sensor_data_t other_fields) (w : world) :
  sensor_available w = true ->
  sensor_powered w = false ->
  0 <= PH_READ_SAMPLES ->
  adc_reads (snd (sensor_ph_read_all (Some d) w)) =
  (adc_reads w + Z.to_nat PH_READ_SAMPLES)%nat /\
  clock_ms (snd (sensor_ph_read_all (Some d) w)) =
  clock_ms w + PH_POWER_ON_DELAY_MS + PH_READ_SAMPLES * PH_READ_DELAY_MS + 1000.
Proof.
  destruct w as [av pw t st gm gl ai ar rx tx ck]; simpl.
  intros -> -> Hn. step. rewrite sample_loop_eq. step.
  destruct (SFltb _ PH_MIN || SFltb PH_MAX _); step;
    rewrite Z2Nat.id by exact Hn; split; lia.
Qed.

Lemma sum_samples_exact (adc : nat -> Z) (bound : Z) :
  (forall i, 0 <= adc i <= bound) ->
  forall (n start : nat) (acc : Z),
    0 <= acc -> acc + Z.of_nat n * bound < 2 ^ 32 ->
    sum_samples adc start n acc = acc + exact_sum adc start n.
Proof.
  intros Hadc. induction n as [|n IH]; intros start acc H0 Hb.
  - simpl. lia.
  - cbn [sum_samples exact_sum]. pose proof (Hadc start) as Hs.
    rewrite Nat2Z.inj_succ, Z.mul_succ_l in Hb.
    assert (0 <= Z.of_nat n * bound) by (apply Z.mul_nonneg_nonneg; lia).
    rewrite Z.mod_small by lia. rewrite IH by lia. lia.
Qed.

(** X5.  The 32-bit accumulator of the sampling loop does not wrap: when
    every sample is between 0 and [bound] and the number of samples times
    [bound] stays below 2^32, the loop returns the plain sum of the samples
    it read. *)
Theorem sample_loop_sum_exact (bound : Z) (n : nat) (w : world) :
  (forall i, 0 <= adc_input w i <= bound) ->
  Z.of_nat n * bound < 2 ^ 32 ->
  fst (sample_loop n 0 w) = exact_sum (adc_input w) (adc_reads w) n.
Proof.
  intros Hadc Hb. rewrite sample_loop_eq. cbn [fst].
  rewrite (sum_samples_exact (adc_input w) bound Hadc) by lia. lia.
Qed.

(** X6.  The uninitialised local record of [sensor_ph_get_payload] never
    shows: the returned count, the buffer and the world after the call are
    the same whatever the record holds on entry. *)
Theorem get_payload_ignores_uninitialised_record
    (u1 u2 : sensor_data_t other_fields) (config : option payload_config_t)
    (w : world) :
  sensor_ph_get_payload u1 config w = sensor_ph_get_payload u2 config w.
Proof.
  destruct (sensor_available w) eqn:Hav; destruct config as [c|];
    try (rewrite !get_payload_guard by auto; reflexivity).
  rewrite !get_payload_available by exact Hav.
  rewrite (read_all_world_independent u1 u2). reflexivity.
Qed.

Lemma to_uint16_range (overflow : float -> Z) (f : float) :
  0 <= to_uint16 overflow f < 65536.
Proof.
  unfold to_uint16. destruct (SFtrunc f) as [z|].
  - destruct ((0 <=? z) && (z <? 65536)) eqn:E.
    + apply andb_prop in E. destruct E as [E1 E2].
      apply Z.leb_le in E1. apply Z.ltb_lt in E2. lia.
    + apply Z.mod_pos_bound. lia.
  - apply Z.mod_pos_bound. lia.
Qed.

Lemma u16_big_endian_value (v : Z) :
  0 <= v < 65536 ->
  Z.shiftr v 8 mod 256 * 256 + Z.land v 255 = v /\
  0 <= Z.shiftr v 8 mod 256 < 256 /\ 0 <= Z.land v 255 < 256.
Proof.
  intros Hv. change 255 with (Z.ones 8). rewrite Z.land_ones by lia.
  rewrite Z.shiftr_div_pow2 by lia. change (2 ^ 8) with 256.
  assert (0 <= v / 256 < 256)
    by (split; [apply Z.div_pos; lia | apply Z.div_lt_upper_bound; lia]).
  rewrite (Z.mod_small (v / 256)) by lia.
  pose proof (Z.div_mod v 256 ltac:(lia)).
  pose proof (Z.mod_pos_bound v 256 ltac:(lia)). lia.
Qed.

(** The two bytes of an available sensor, and the value they carry. *)
Lemma payload_two_bytes
    (uninit : sensor_data_t other_fields) (c : payload_config_t) (w : world) :
  sensor_available w = true ->
  (2 <= List.length (buffer c))%nat ->
  exists b0 b1 c',
    fst (sensor_ph_get_payload uninit (Some c) w) = (2, Some c') /\
    buffer c' = (b0 :: b1 :: skipn 2 (buffer c))%list /\
    0 <= b0 < 256 /\ 0 <= b1 < 256 /\
    b0 * 256 + b1 = ph_field (ph_reading w) /\
    0 <= ph_field (ph_reading w) < 65536.
Proof.
  intros Hav Hlen. rewrite get_payload_available by exact Hav. cbn [fst].
  pose proof (to_uint16_range uint16_overflow
                (F32.mul (ph_reading w) (F32.of_Z 100))) as Hr.
  fold (ph_field (ph_reading w)) in Hr.
  destruct (u16_big_endian_value _ Hr) as (Hv & Hb0 & Hb1).
  eexists _, _, _. split; [reflexivity|]. cbn [buffer].
  rewrite store_two_bytes by exact Hlen. rewrite u16_bytes_in_range.
  split; [reflexivity|]. repeat split; try lia.
Qed.

(** X7.  The two bytes an available sensor puts in the buffer are the pH
    field, a value below 65536, high byte first: [buffer[0] * 256 + buffer[1]]
    gives the field back, and the rest of the buffer is untouched. *)
Theorem payload_reads_back_high_byte_first
    (uninit : sensor_data_t other_fields) (c : payload_config_t) (w : world) :
  sensor_available w = true ->
  (2 <= List.length (buffer c))%nat ->
  exists b0 b1 c',
    fst (sensor_ph_get_payload uninit (Some c) w) = (2, Some c') /\
    buffer c' = (b0 :: b1 :: skipn 2 (buffer c))%list /\
    0 <= b0 < 256 /\ 0 <= b1 < 256 /\
    b0 * 256 + b1 = ph_field (ph_reading w) /\
    0 <= ph_field (ph_reading w) < 65536.
Proof. exact (payload_two_bytes uninit c w). Qed.

Lemma byte_range_enum (P : Z -> bool) (n : nat) :
  forallb P (map Z.of_nat (seq 0 n)) = true ->
  forall b, 0 <= b < Z.of_nat n -> P b = true.
Proof.
  intros H b Hb. rewrite forallb_forall in H. apply H.
  apply in_map_iff. exists (Z.to_nat b). split; [lia|].
  apply in_seq. lia.
Qed.

(** X8.  For every pH written with two decimals between 0.00 and 14.00, the
    field computed from the nearest [float] is that value times 100 or one
    less: the conversion truncates, and for 0.53 it gives 52. *)
Theorem two_decimal_ph_field (k : Z) :
  0 <= k <= 1400 ->
  k - 1 <= ph_field (F32.lit k 100) <= k /\
  ph_field (F32.lit 53 100) = 52.
Proof.
  intros Hk. split; [|vm_compute; reflexivity].
  assert (H : (k - 1 <=? ph_field (F32.lit k 100))
              && (ph_field (F32.lit k 100) <=? k) = true).
  { apply (byte_range_enum
             (fun k => (k - 1 <=? ph_field (F32.lit k 100))
                       && (ph_field (F32.lit k 100) <=? k)) 1401);
      [vm_compute; reflexivity | lia]. }
  apply andb_prop in H. destruct H as [H1 H2].
  apply Z.leb_le in H1. apply Z.leb_le in H2. lia.
Qed.

(** X9.  Of the record it is given, [sensor_ph_read_all] changes the pH
    field only: the fields of the other drivers are as before, whether the
    read succeeds or not. *)
Theorem read_all_keeps_other_fields
    (data : option (sensor_data_t other_fields)) (w : world) :
  match data, snd (fst (sensor_ph_read_all data w)) with
  | Some d, Some d' => data_rest d' = data_rest d
  | None, None => True
  | _, _ => False
  end.
Proof.
  destruct (sensor_available w) eqn:Hav; destruct data as [d|];
    try (rewrite read_all_guard by auto; cbn [fst snd]; auto).
  destruct (read_all_available d w Hav) as (Hr & _).
  rewrite Hr. reflexivity.
Qed.

(** X10.  When [sensor_ph_get_payload] returns 0 it has done nothing: the
    descriptor and its buffer, the driver state, the serial log, the clock
    and the converter are all as before the call. *)
Theorem get_payload_zero_is_silent (uninit : sensor_data_t other_fields)
    (config : option payload_config_t) (w : world) :
  fst (fst (sensor_ph_get_payload uninit config w)) = 0 ->
  sensor_ph_get_payload uninit config w = ((0, config), w).
Proof.
  destruct (sensor_available w) eqn:Hav; destruct config as [c|];
    try solve [intros _; apply get_payload_guard; auto].
  rewrite get_payload_available by exact Hav. cbn [fst]. discriminate.
Qed.

End DriverRunFacts.

(** ** Further properties of the generators *)

Section GeneratorFacts.

Context `{build : build_config}.

Lemma string_append_assoc (a b c : string) :
  ((a ++ b) ++ c)%string = (a ++ b ++ c)%string.
Proof. induction a as [|x a IH]; simpl; [reflexivity | rewrite IH; reflexivity]. Qed.

Lemma string_concat_cons (c : string) (chunks : list string) :
  String.concat EmptyString (c :: chunks) =
  (c ++ String.concat EmptyString chunks)%string.
Proof.
  destruct chunks as [|c' chunks]; simpl; [|reflexivity].
  induction c as [|x c IH]; simpl; [reflexivity | rewrite <- IH; reflexivity].
Qed.

Lemma fold_snprintf_none (max_size : Z) (chunks : list string) :
  fold_left (snprintf_at max_size) chunks None = None.
Proof. induction chunks as [|c l IH]; simpl; [reflexivity | exact IH]. Qed.

(** Chunks that all fit are appended whole, one after the other. *)
Lemma fold_snprintf_fits (max_size : Z) (chunks : list string) :
  max_size <= 65536 ->
  forall (text : string) (offset : Z),
    0 <= offset ->
    offset + total_length chunks < max_size ->
    fold_left (snprintf_at max_size) chunks (Some (text, offset)) =
    Some ((text ++ String.concat EmptyString chunks)%string,
          offset + total_length chunks).
Proof.
  intros Hmax. induction chunks as [|c l IH]; intros text offset H0 Hfit.
  - simpl. f_equal. f_equal; [|lia].
    induction text as [|x t IHt]; simpl; [reflexivity | rewrite <- IHt; reflexivity].
  - change (total_length (c :: l))
      with (Z.of_nat (String.length c) + total_length l) in *.
    assert (0 <= total_length l).
    { clear. induction l as [|c' l' IH']; simpl; lia. }
    cbn [fold_left]. rewrite snprintf_at_fits by lia.
    rewrite IH by lia. rewrite string_concat_cons, string_append_assoc.
    f_equal. f_equal. lia.
Qed.

(** Once the chunks before the last one exceed the buffer, a call gets a
    negative size. *)
Lemma fold_snprintf_overflow (max_size : Z) (chunks : list string) :
  forall (text : string) (offset : Z),
    chunks <> [] ->
    0 <= offset ->
    offset + total_length chunks < 65536 ->
    max_size < offset + total_length (removelast chunks) ->
    fold_left (snprintf_at max_size) chunks (Some (text, offset)) = None.
Proof.
  induction chunks as [|c l IH]; intros text offset Hne H0 Hsmall Hover;
    [congruence|].
  assert (Hpos : forall l' : list string, 0 <= total_length l').
  { induction l' as [|c' l' IH']; simpl; lia. }
  change (total_length (c :: l))
    with (Z.of_nat (String.length c) + total_length l) in Hsmall.
  pose proof (Hpos l) as Hl.
  cbn [fold_left]. unfold snprintf_at at 2.
  destruct (max_size - offset <? 0) eqn:E; [apply fold_snprintf_none|].
  apply Z.ltb_ge in E.
  destruct l as [|c2 l].
  - simpl in Hover. lia.
  - rewrite Z.mod_small by lia. apply IH; try lia; [discriminate|].
    change (total_length (removelast (c :: c2 :: l)))
      with (Z.of_nat (String.length c) + total_length (removelast (c2 :: l)))
      in Hover.
    lia.
Qed.

(** The call that gets the negative size: the chunks before it were
    handled within the model and left [offset] above [max_size]. *)
Lemma fold_snprintf_wraps (max_size : Z) (chunks : list string) :
  forall (text : string) (offset : Z),
    chunks <> [] ->
    0 <= offset ->
    offset + total_length chunks < 65536 ->
    max_size < offset + total_length (removelast chunks) ->
    exists before chunk rest text' offset',
      chunks = (before ++ chunk :: rest)%list /\
      fold_left (snprintf_at max_size) before (Some (text, offset)) =
      Some (text', offset') /\
      max_size - offset' < 0.
Proof.
  induction chunks as [|c l IH]; intros text offset Hne H0 Hsmall Hover;
    [congruence|].
  assert (Hpos : forall l' : list string, 0 <= total_length l').
  { induction l' as [|c' l' IH']; simpl; lia. }
  change (total_length (c :: l))
    with (Z.of_nat (String.length c) + total_length l) in Hsmall.
  pose proof (Hpos l) as Hl.
  destruct (Z_lt_dec (max_size - offset) 0) as [Hneg|Hroom].
  - exists [], c, l, text, offset. repeat split. exact Hneg.
  - destruct l as [|c2 l]; [simpl in Hover; lia|].
    change (total_length (removelast (c :: c2 :: l)))
      with (Z.of_nat (String.length c) + total_length (removelast (c2 :: l)))
      in Hover.
    assert (Hstep : exists text1,
               snprintf_at max_size (Some (text, offset)) c =
               Some (text1, offset + Z.of_nat (String.length c))).
    { unfold snprintf_at.
      destruct (max_size - offset <? 0) eqn:E; [apply Z.ltb_lt in E; lia|].
      rewrite Z.mod_small by lia. eexists. reflexivity. }
    destruct Hstep as [text1 Hstep].
    destruct (IH text1 (offset + Z.of_nat (String.length c)))
      as (before & chunk & rest & text' & offset' & Hsplit & Hfold & Hneg);
      try lia; [discriminate|].
    exists (c :: before), chunk, rest, text', offset'.
    split; [rewrite Hsplit; reflexivity|].
    split; [cbn [fold_left]; rewrite Hstep; exact Hfold | exact Hneg].
Qed.

(** X11.  With [max_size] at least 100 but below the length of the text
    before the footer, [generate_ttn_decoder_string] reaches a call of
    [snprintf] with [offset] above [max_size]: the size it passes,
    [max_size - offset], is negative before its conversion to [size_t] and
    no longer bounds the call by the room left.  Every build has such
    sizes: all of 100 to 255. *)
Theorem decoder_string_size_wraps (initial : string) (max_size : Z) :
  100 <= max_size ->
  max_size < total_length (removelast decoder_string_chunks) ->
  (exists before chunk rest text offset,
     decoder_string_chunks = (before ++ chunk :: rest)%list /\
     fold_left (snprintf_at max_size) before (Some (EmptyString, 0)) =
     Some (text, offset) /\
     max_size - offset < 0) /\
  generate_ttn_decoder_string (Some initial) max_size = None /\
  256 <= total_length (removelast decoder_string_chunks).
Proof.
  intros Hmin Hover.
  assert (Hlen : 256 <= total_length (removelast decoder_string_chunks) /\
                 total_length decoder_string_chunks < 65536 /\
                 decoder_string_chunks <> []).
  { unfold decoder_string_chunks. destruct build as [p b d sh sz].
    cbn [ENABLE_SENSOR_PH ENABLE_SENSOR_BME280 ENABLE_SENSOR_DS18B20].
    destruct p, b, d; (split; [vm_compute; discriminate|]);
      (split; [vm_compute; reflexivity | discriminate]). }
  destruct Hlen as (H256 & Hsmall & Hne).
  split; [apply fold_snprintf_wraps; [exact Hne | lia | lia | lia]|].
  split; [|exact H256].
  unfold generate_ttn_decoder_string.
  destruct (max_size <? 100) eqn:E; [apply Z.ltb_lt in E; lia|].
  rewrite fold_snprintf_overflow; [reflexivity | exact Hne | lia | lia | lia].
Qed.

(** X12.  In a buffer larger than the text, [generate_ttn_decoder_string]
    writes all its chunks, returns their total length, and the text is the
    rendering of [string_decoder], whatever the buffer held before. *)
Theorem decoder_string_complete (initial : string) (max_size : Z) :
  total_length decoder_string_chunks < max_size <= 65535 ->
  generate_ttn_decoder_string (Some initial) max_size =
  Some (total_length decoder_string_chunks, Some decoder_string_text) /\
  decoder_string_text = unlines (render_function string_decoder).
Proof.
  intros [Hfit Hmax].
  assert (Hlen : 100 <= total_length decoder_string_chunks /\
                 decoder_string_text = unlines (render_function string_decoder)).
  { unfold decoder_string_text, decoder_string_chunks, string_decoder,
      field_code.
    destruct build as [p b d sh sz].
    cbn [ENABLE_SENSOR_PH ENABLE_SENSOR_BME280 ENABLE_SENSOR_DS18B20].
    destruct p, b, d; (split; [vm_compute; discriminate | vm_compute; reflexivity]). }
  destruct Hlen as [H100 Htext]. split; [|exact Htext].
  unfold generate_ttn_decoder_string.
  destruct (max_size <? 100) eqn:E; [apply Z.ltb_lt in E; lia|].
  rewrite fold_snprintf_fits by lia. reflexivity.
Qed.

Lemma twelve_bytes (bytes : list Z) :
  List.length bytes = 12%nat ->
  exists b0 b1 b2 b3 b4 b5 b6 b7 b8 b9 b10 b11,
    bytes = [b0; b1; b2; b3; b4; b5; b6; b7; b8; b9; b10; b11].
Proof.
  intros Hn.
  do 12 (destruct bytes as [|? bytes]; [discriminate Hn|]).
  destruct bytes; [|discriminate Hn].
  do 12 eexists. reflexivity.
Qed.

Lemma wrong_length_data (bytes : list Z) :
  Z.of_nat (List.length bytes) <> 12 ->
  outcome_data (decodeUplink printed_decoder bytes) = Some [] /\
  outcome_data (decodeUplink string_decoder bytes) = Some [].
Proof.
  intros Hlen. apply Z.eqb_neq in Hlen.
  unfold decodeUplink, printed_decoder, string_decoder, decoder_prologue,
    payload_validation_code.
  cbn [app exec_body exec_stmt env_bytes env_data empty_env].
  rewrite Hlen. split; reflexivity.
Qed.

(** X13.  The two generators emit decoders that agree: for every build and
    every payload, of any length, the data object the printed routine returns
    is the one the string routine returns. *)
Theorem printed_and_string_decoders_agree (bytes : list Z) :
  outcome_data (decodeUplink printed_decoder bytes) =
  outcome_data (decodeUplink string_decoder bytes).
Proof.
  destruct (Z.eq_dec (Z.of_nat (List.length bytes)) 12) as [Hlen|Hlen].
  - destruct (twelve_bytes bytes ltac:(lia))
      as (b0 & b1 & b2 & b3 & b4 & b5 & b6 & b7 & b8 & b9 & b10 & b11 & ->).
    destruct build as [p b d sh sz].
    destruct p, b, d;
      lazy - [js_index js_bitor js_shl js_div F64.of_Z]; reflexivity.
  - destruct (wrong_length_data bytes Hlen) as [-> ->]. reflexivity.
Qed.

(** X14.  The emitted routine never looks at the end of a 12-byte payload:
    it reads [bytes_read printed_decoder] bytes, 11 at most, and two payloads
    that agree on those give the same result. *)
Theorem decoder_ignores_trailing_bytes (bytes1 bytes2 : list Z) :
  List.length bytes1 = 12%nat ->
  List.length bytes2 = 12%nat ->
  firstn (Z.to_nat (bytes_read printed_decoder)) bytes1 =
  firstn (Z.to_nat (bytes_read printed_decoder)) bytes2 ->
  decodeUplink printed_decoder bytes1 = decodeUplink printed_decoder bytes2 /\
  bytes_read printed_decoder <= 11.
Proof.
  intros H1 H2.
  destruct (twelve_bytes bytes1 H1)
    as (a0 & a1 & a2 & a3 & a4 & a5 & a6 & a7 & a8 & a9 & a10 & a11 & ->).
  destruct (twelve_bytes bytes2 H2)
    as (b0 & b1 & b2 & b3 & b4 & b5 & b6 & b7 & b8 & b9 & b10 & b11 & ->).
  destruct build as [p b d sh sz].
  destruct p, b, d;
    (lazy - [js_index js_bitor js_shl js_div F64.of_Z Z.le];
     intros Heq; injection Heq as; subst; split; [reflexivity | discriminate]).
Qed.

Lemma is_byte_range (b : Z) : is_byte b = true -> 0 <= b < 256.
Proof.
  unfold is_byte. intros H. apply andb_prop in H. destruct H as [H1 H2].
  apply Z.leb_le in H1. apply Z.ltb_lt in H2. lia.
Qed.

Lemma enum_256 (P : Z -> bool) :
  forallb P (map Z.of_nat (seq 0 256)) = true ->
  forall b, is_byte b = true -> P b = true.
Proof.
  intros H b Hb. apply is_byte_range in Hb. rewrite forallb_forall in H.
  apply H. apply in_map_iff. exists (Z.to_nat b). split; [lia|].
  apply in_seq. lia.
Qed.

(** A byte survives the trip through a JavaScript number. *)
Lemma to_int32_of_byte (b : Z) :
  is_byte b = true -> js_to_int32 (JsNumber (F64.of_Z b)) = b.
Proof.
  intros Hb. apply Z.eqb_eq.
  apply (enum_256 (fun b => js_to_int32 (JsNumber (F64.of_Z b)) =? b));
    [vm_compute; reflexivity | exact Hb].
Qed.

Lemma to_int32_of_shifted_byte (b : Z) :
  is_byte b = true -> js_to_int32 (JsNumber (F64.of_Z (b * 256))) = b * 256.
Proof.
  intros Hb. apply Z.eqb_eq.
  apply (enum_256
           (fun b => js_to_int32 (JsNumber (F64.of_Z (b * 256))) =? b * 256));
    [vm_compute; reflexivity | exact Hb].
Qed.

Lemma lor_low_high (lo hi : Z) :
  is_byte lo = true -> is_byte hi = true ->
  Z.lor lo (hi * 256) = lo + 256 * hi.
Proof.
  intros Hlo Hhi. apply Z.eqb_eq.
  apply (enum_256 (fun lo =>
           forallb (fun hi => Z.lor lo (hi * 256) =? lo + 256 * hi)
                   (map Z.of_nat (seq 0 256)))) in Hlo;
    [|vm_compute; reflexivity].
  exact (enum_256 _ Hlo hi Hhi).
Qed.

(** [lo | (hi << 8)] on two bytes is the little-endian value. *)
Lemma read_u16_little_endian (lo hi : Z) :
  is_byte lo = true -> is_byte hi = true ->
  js_bitor (JsNumber (F64.of_Z lo))
           (js_shl (JsNumber (F64.of_Z hi)) (JsNumber (F64.of_Z 8)))
  = JsNumber (F64.of_Z (lo + 256 * hi)).
Proof.
  intros Hlo Hhi. unfold js_bitor, js_shl.
  rewrite (to_int32_of_byte hi Hhi), (to_int32_of_byte lo Hlo).
  change (js_to_int32 (JsNumber (F64.of_Z 8)) mod 32) with 8.
  pose proof (is_byte_range hi Hhi) as Rhi.
  rewrite Z.shiftl_mul_pow2 by lia. change (2 ^ 8) with 256.
  assert (Hw : wrap_int32 (hi * 256) = hi * 256).
  { unfold wrap_int32. rewrite Z.mod_small; lia. }
  rewrite Hw, (to_int32_of_shifted_byte hi Hhi), (lor_low_high lo hi Hlo Hhi).
  reflexivity.
Qed.

(** X15.  On a 12-byte payload of bytes the printed routine is the inverse
    of the scaling table read low byte first: for every build it returns
    the battery byte and then, walking the payload in order, each field of a
    compiled-in sensor as [(lo + 256 * hi) / divisor]. *)
Theorem printed_decoder_is_little_endian (bytes : list Z) :
  List.length bytes = 12%nat ->
  all_bytes bytes = true ->
  decodeUplink printed_decoder bytes =
  Returned {| res_data := reference_decode field_table bytes;
              res_warnings := None; res_errors := None |}.
Proof.
  intros Hn Hb.
  destruct (twelve_bytes bytes Hn)
    as (b0 & b1 & b2 & b3 & b4 & b5 & b6 & b7 & b8 & b9 & b10 & b11 & ->).
  cbn [all_bytes forallb] in Hb.
  repeat match type of Hb with
         | _ && _ = true =>
             apply andb_prop in Hb;
             let H := fresh "Hbyte" in destruct Hb as [H Hb]
         end.
  clear Hb.
  destruct build as [p b d sh sz].
  destruct p, b, d;
    lazy - [js_bitor js_shl F64.of_Z F64.div];
    rewrite ?read_u16_little_endian by assumption; reflexivity.
Qed.

End GeneratorFacts.

(** ** The driver and the decoder together *)

Section EndToEnd.

Context `{cfg : config_h} `{lib : DFRobot_PH} {other_fields : Type}.
Context `{build : build_config}.

(** X16.  Decoding what the driver sends exchanges the two bytes of the
    field: for every reading, the emitted pH statements applied to the two
    bytes [sensor_ph_get_payload] wrote return [swap16 field / 100], where
    [field] is the value the driver encoded. *)
Theorem decoding_the_payload_swaps_bytes
    (uninit : sensor_data_t other_fields) (c : payload_config_t) (w : world) :
  sensor_available w = true ->
  (2 <= List.length (buffer c))%nat ->
  exists b0 b1 c',
    fst (sensor_ph_get_payload uninit (Some c) w) = (2, Some c') /\
    firstn 2 (buffer c') = [b0; b1] /\
    decodeUplink ph_field_decoder [b0; b1] =
    Returned {| res_data :=
                  [("ph", JsNumber (F64.div
                                      (F64.of_Z (swap16 (ph_field (ph_reading w))))
                                      (F64.of_Z 100)))];
                res_warnings := None; res_errors := None |}.
Proof.
  intros Hav Hlen.
  destruct (payload_two_bytes uninit c w Hav Hlen)
    as (b0 & b1 & c' & Hr & Hbuf & Hb0 & Hb1 & Hval & Hrange).
  exists b0, b1, c'. split; [exact Hr|]. split; [rewrite Hbuf; reflexivity|].
  assert (Hs : swap16 (ph_field (ph_reading w)) = b0 + 256 * b1).
  { unfold swap16. rewrite <- Hval.
    replace (b0 * 256 + b1) with (b1 + b0 * 256) by lia.
    rewrite Z.mod_add, Z.div_add by lia.
    rewrite Z.mod_small, Z.div_small by lia. lia. }
  rewrite Hs.
  assert (Hi0 : is_byte b0 = true).
  { unfold is_byte. apply andb_true_intro.
    split; [apply Z.leb_le | apply Z.ltb_lt]; lia. }
  assert (Hi1 : is_byte b1 = true).
  { unfold is_byte. apply andb_true_intro.
    split; [apply Z.leb_le | apply Z.ltb_lt]; lia. }
  lazy - [js_bitor js_shl F64.of_Z F64.div].
  rewrite read_u16_little_endian by assumption. reflexivity.
Qed.

(** X18.  [generate_and_print_ttn_decoder] prints nothing when
    [SHOW_TTN_DECODER] is 0.  Otherwise it prints the configuration summary,
    a banner, the function [decodeUplink] whose body is [printed_decoder],
    line for line, and a trailer. *)
Theorem decoder_printed_only_when_enabled :
  (SHOW_TTN_DECODER = 0 -> generate_and_print_ttn_decoder = []) /\
  (SHOW_TTN_DECODER <> 0 ->
   exists banner trailer,
     generate_and_print_ttn_decoder =
     (print_configuration_info ++ map Println banner
      ++ map Println (render_function printed_decoder)
      ++ map Println trailer)%list /\
     List.length banner = 10%nat /\ List.length trailer = 3%nat).
Proof.
  split.
  - intros H. unfold generate_and_print_ttn_decoder. rewrite H. reflexivity.
  - intros Hshow. unfold generate_and_print_ttn_decoder.
    destruct (SHOW_TTN_DECODER =? 0) eqn:E;
      [apply Z.eqb_eq in E; contradiction|].
    exists (firstn 10 (map (fun o => match o with
                                     | Println l => l
                                     | Printf f _ => f
                                     end) print_decoder_header)).
    exists (skipn 2 (map (fun o => match o with
                                   | Println l => l
                                   | Printf f _ => f
                                   end) print_decoder_footer)).
    split; [|split; reflexivity].
    f_equal. unfold printed_decoder, field_code.
    destruct build as [p b d sh sz]; simpl.
    destruct p, b, d; vm_compute; reflexivity.
Qed.

End EndToEnd.

(** ** The further properties on concrete inputs *)

(** A rejected temperature and a read leave the temperature in range. *)
Lemma temperature_stays_in_range_witness :
  temperature_in_range (started ph_7_42) = true /\
  temperature_in_range
    (run_calls (cfg := example_config) (lib := fixed_probe ph_7_42)
       [Call_set_temperature (F32.of_Z 200); Call_read_all (Some record_7)]
       (started ph_7_42)) = true.
Proof.
  split; [vm_compute; reflexivity|].
  apply (temperature_stays_in_range (cfg := example_config)
           (lib := fixed_probe ph_7_42)).
  vm_compute. reflexivity.
Defined.

(** Ten samples at 10 ms after a 2000 ms power-on. *)
Lemma read_all_cost_witness :
  adc_reads (snd (sensor_ph_read_all (cfg := example_config)
                    (lib := fixed_probe ph_7_42)
                    (Some record_7) (started ph_7_42)))
  = (adc_reads (started ph_7_42) + Z.to_nat 10)%nat /\
  clock_ms (snd (sensor_ph_read_all (cfg := example_config)
                   (lib := fixed_probe ph_7_42)
                   (Some record_7) (started ph_7_42)))
  = clock_ms (started ph_7_42) + 2000 + 10 * 10 + 1000.
Proof.
  apply (read_all_cost (cfg := example_config) (lib := fixed_probe ph_7_42)
           record_7 (started ph_7_42));
    [reflexivity | reflexivity | simpl; lia].
Defined.

(** Ten 12-bit samples. *)
Lemma sample_loop_sum_exact_witness :
  fst (sample_loop (cfg := example_config) (lib := fixed_probe ph_7_42)
         10 0 (started ph_7_42))
  = exact_sum (adc_input (started ph_7_42)) (adc_reads (started ph_7_42)) 10.
Proof.
  apply (sample_loop_sum_exact (cfg := example_config)
           (lib := fixed_probe ph_7_42) 4095 10 (started ph_7_42)).
  - intros i. simpl. lia.
  - simpl. lia.
Defined.

(** The payload of a probe at pH 7.42 in a two-byte buffer. *)
Lemma payload_reads_back_high_byte_first_witness :
  sensor_available (started ph_7_42) = true /\
  (2 <= List.length (buffer two_byte_config))%nat /\
  exists b0 b1 c',
    fst (sensor_ph_get_payload (cfg := example_config)
           (lib := fixed_probe ph_7_42)
           blank_record (Some two_byte_config) (started ph_7_42))
    = (2, Some c') /\
    buffer c' = (b0 :: b1 :: skipn 2 (buffer two_byte_config))%list /\
    0 <= b0 < 256 /\ 0 <= b1 < 256 /\
    b0 * 256 + b1 =
    ph_field (cfg := example_config)
      (ph_reading (cfg := example_config) (started ph_7_42)) /\
    0 <= ph_field (cfg := example_config)
           (ph_reading (cfg := example_config) (started ph_7_42)) < 65536.
Proof.
  split; [reflexivity|]. split; [simpl; lia|].
  apply (payload_reads_back_high_byte_first (cfg := example_config)
           (lib := fixed_probe ph_7_42) blank_record two_byte_config
           (started ph_7_42)); [reflexivity | simpl; lia].
Defined.

(** pH 7.42. *)
Lemma two_decimal_ph_field_witness :
  742 - 1 <= ph_field (cfg := example_config) (F32.lit 742 100) <= 742 /\
  ph_field (cfg := example_config) (F32.lit 53 100) = 52.
Proof.
  apply (two_decimal_ph_field (cfg := example_config) 742). lia.
Defined.

(** A payload request before [sensor_ph_init]. *)
Lemma get_payload_zero_is_silent_witness :
  sensor_ph_get_payload (cfg := example_config) (lib := fixed_probe ph_7_42)
    blank_record (Some two_byte_config) (unstarted ph_7_42)
  = ((0, Some two_byte_config), unstarted ph_7_42).
Proof.
  apply (get_payload_zero_is_silent (cfg := example_config)
           (lib := fixed_probe ph_7_42)).
  reflexivity.
Defined.

(** A buffer of 120 characters in the pH-only build: the second call
    already finds [offset] = 214. *)
Lemma decoder_string_size_wraps_witness :
  (exists before chunk rest text offset,
     decoder_string_chunks (build := ph_only_build) =
     (before ++ chunk :: rest)%list /\
     fold_left (snprintf_at 120) before (Some (EmptyString, 0)) =
     Some (text, offset) /\
     120 - offset < 0) /\
  generate_ttn_decoder_string (build := ph_only_build) (Some EmptyString) 120
  = None /\
  256 <= total_length
           (removelast (decoder_string_chunks (build := ph_only_build))).
Proof.
  apply (decoder_string_size_wraps (build := ph_only_build) EmptyString 120);
    [lia | vm_compute; reflexivity].
Defined.

(** A buffer of 1000 characters in the pH-only build. *)
Lemma decoder_string_complete_witness :
  generate_ttn_decoder_string (build := ph_only_build) (Some EmptyString) 1000
  = Some (total_length (decoder_string_chunks (build := ph_only_build)),
          Some (decoder_string_text (build := ph_only_build))) /\
  decoder_string_text (build := ph_only_build) =
  unlines (render_function (string_decoder (build := ph_only_build))).
Proof.
  apply (decoder_string_complete (build := ph_only_build) EmptyString 1000).
  split; [vm_compute; reflexivity | lia].
Defined.

(** Two payloads of the reference build that differ in the last byte. *)
Lemma decoder_ignores_trailing_bytes_witness :
  decodeUplink (printed_decoder (build := reference_build))
    [87; 230; 2; 87; 8; 8; 7; 16; 39; 145; 39; 0]
  = decodeUplink (printed_decoder (build := reference_build))
      [87; 230; 2; 87; 8; 8; 7; 16; 39; 145; 39; 255] /\
  bytes_read (printed_decoder (build := reference_build)) <= 11.
Proof.
  apply (decoder_ignores_trailing_bytes (build := reference_build));
    reflexivity.
Defined.

(** A payload of the reference build. *)
Lemma printed_decoder_is_little_endian_witness :
  decodeUplink (printed_decoder (build := reference_build))
    [87; 230; 2; 87; 8; 8; 7; 16; 39; 145; 39; 0]
  = Returned
      {| res_data :=
           reference_decode (field_table (build := reference_build))
             [87; 230; 2; 87; 8; 8; 7; 16; 39; 145; 39; 0];
         res_warnings := None; res_errors := None |}.
Proof.
  apply (printed_decoder_is_little_endian (build := reference_build));
    reflexivity.
Defined.

(** The payload of a probe at pH 7.42, decoded. *)
Lemma decoding_the_payload_swaps_bytes_witness :
  exists b0 b1 c',
    fst (sensor_ph_get_payload (cfg := example_config)
           (lib := fixed_probe ph_7_42)
           blank_record (Some two_byte_config) (started ph_7_42))
    = (2, Some c') /\
    firstn 2 (buffer c') = [b0; b1] /\
    decodeUplink ph_field_decoder [b0; b1] =
    Returned
      {| res_data :=
           [("ph",
             JsNumber
               (F64.div
                  (F64.of_Z
                     (swap16
                        (ph_field (cfg := example_config)
                           (ph_reading (cfg := example_config)
                              (started ph_7_42)))))
                  (F64.of_Z 100)))];
         res_warnings := None; res_errors := None |}.
Proof.
  apply (decoding_the_payload_swaps_bytes (cfg := example_config)
           (lib := fixed_probe ph_7_42) blank_record two_byte_config
           (started ph_7_42)); [reflexivity | simpl; lia].
Defined.

(** The reference build prints its decoder. *)
Lemma decoder_printed_only_when_enabled_witness :
  exists banner trailer,
    generate_and_print_ttn_decoder (build := reference_build) =
    (print_configuration_info (build := reference_build)
     ++ map Println banner
     ++ map Println
          (render_function (printed_decoder (build := reference_build)))
     ++ map Println trailer)%list /\
    List.length banner = 10%nat /\ List.length trailer = 3%nat.
Proof.
  apply (proj2 (decoder_printed_only_when_enabled (build := reference_build))).
  discriminate.
Defined.
